(** * simple-article-tagger: the region-to-field coordinate engine

    A shallow embedding of the selection code of [static/pdf-bbox.js]
    (the overlay controller working inside the embedded PDF viewer) and of
    the stand-alone selection page (the first script of the second source
    file, with [initSelectionHandlers]), together with the properties the
    specification states about them.

    Conventions of the embedding.
    - JavaScript numbers are modelled by exact rationals [Q]: [Math.min],
      [Math.max] and [Math.abs] are [Qmin], [Qmax] and [Qabs].  Rounding,
      [Infinity] and [NaN] are outside the model: the statements are about
      finite numbers, and those whose proof goes through a division assume
      a non-zero divisor.  Equality of numbers is [Qeq] ([==]).
    - [null] / [undefined] are [None]; a string is falsy when it is empty.
    - Objects used as dictionaries are [gmap]s, arrays are lists.
    - Handlers are state transformers; what they show to the user or send
      over the network is appended to an explicit trace. *)

From Stdlib Require Import ZArith QArith Qminmax Qabs Qround Lia Lqa.
From stdpp Require Import base option list gmap strings pretty.

Local Open Scope Q_scope.

(** ** Numbers *)

Definition point : Type := Q * Q.

(** Two numbers agree within a relative tolerance [tol]. *)
Definition within_tol (tol a b : Q) : Prop := Qabs (a - b) <= tol * Qabs b.

Definition tol6 : Q := 1 # 1000000.

(** The comparison [a < b] as a boolean. *)
Definition Qltb (a b : Q) : bool := negb (Qle_bool b a).

(** Two values that are [p] and [q] in some order. *)
Definition unordered (a1 a2 p q : Q) : Prop :=
  (a1 == p /\ a2 == q) \/ (a1 == q /\ a2 == p).

(** JS truthiness of a possibly missing string. *)
Definition truthy (s : option string) : bool :=
  match s with
  | Some v => negb (String.eqb v "")
  | None => false
  end.

(** ** The viewer's page geometry

    The handlers of [pdf-bbox.js] obtain the geometry of a page from the
    embedded viewer: [pageView.viewport] with its [width], its
    [convertToPdfPoint] and [convertToViewportPoint], and [pdfPage.view].
    The viewer is a third-party library (pdf.js) and not part of the sources;
    this module records its documented behaviour: a viewport carries an affine
    [transform] [[a, b, c, d, e, f]], [convertToViewportPoint] applies it and
    [convertToPdfPoint] applies its inverse. *)
Module Viewer.

Record Matrix : Type := mkMatrix { m0 : Q; m1 : Q; m2 : Q; m3 : Q; m4 : Q; m5 : Q }.

(** [pdfPage.view], the page box [[x1, y1, x2, y2]] in points. *)
Record Box : Type := mkBox { b0 : Q; b1 : Q; b2 : Q; b3 : Q }.

Record PageViewport : Type := mkViewport {
  width : Q;
  height : Q;
  transform : Matrix
}.

Definition applyTransform (p : point) (m : Matrix) : point :=
  (fst p * m0 m + snd p * m2 m + m4 m,
   fst p * m1 m + snd p * m3 m + m5 m).

Definition applyInverseTransform (p : point) (m : Matrix) : point :=
  let d := m0 m * m3 m - m1 m * m2 m in
  ((fst p * m3 m - snd p * m2 m + m2 m * m5 m - m4 m * m3 m) / d,
   (- fst p * m1 m + snd p * m0 m + m4 m * m1 m - m5 m * m0 m) / d).

Definition convertToViewportPoint (vp : PageViewport) (x y : Q) : point :=
  applyTransform (x, y) (transform vp).

Definition convertToPdfPoint (vp : PageViewport) (x y : Q) : point :=
  applyInverseTransform (x, y) (transform vp).

(** The four rotation matrices of the viewer; any other angle is refused
    by the viewer itself. *)
Definition rotationMatrix (rotation : Z) : option (Q * Q * Q * Q) :=
  let r := Z.rem rotation 360 in
  let r := if (r <? 0)%Z then (r + 360)%Z else r in
  if (r =? 180)%Z then Some (-1, 0, 0, 1)
  else if (r =? 90)%Z then Some (0, 1, 1, 0)
  else if (r =? 270)%Z then Some (0, -1, -1, 0)
  else if (r =? 0)%Z then Some (1, 0, 0, -1)
  else None.

(** The viewport of a page box shown at [scale] and [rotation]. *)
Definition viewportOf (viewBox : Box) (scale : Q) (rotation : Z)
  : option PageViewport :=
  match rotationMatrix rotation with
  | None => None
  | Some (rotateA, rotateB, rotateC, rotateD) =>
      let centerX := (b2 viewBox + b0 viewBox) / 2 in
      let centerY := (b3 viewBox + b1 viewBox) / 2 in
      let sideways := Qeq_bool rotateA 0 in
      let offsetCanvasX :=
        if sideways then Qabs (centerY - b1 viewBox) * scale
        else Qabs (centerX - b0 viewBox) * scale in
      let offsetCanvasY :=
        if sideways then Qabs (centerX - b0 viewBox) * scale
        else Qabs (centerY - b1 viewBox) * scale in
      let w :=
        if sideways then (b3 viewBox - b1 viewBox) * scale
        else (b2 viewBox - b0 viewBox) * scale in
      let h :=
        if sideways then (b2 viewBox - b0 viewBox) * scale
        else (b3 viewBox - b1 viewBox) * scale in
      Some {| width := w;
              height := h;
              transform :=
                {| m0 := rotateA * scale;
                   m1 := rotateB * scale;
                   m2 := rotateC * scale;
                   m3 := rotateD * scale;
                   m4 := offsetCanvasX - rotateA * scale * centerX
                         - rotateC * scale * centerY;
                   m5 := offsetCanvasY - rotateB * scale * centerX
                         - rotateD * scale * centerY |} |}
  end.

(** A transform that maps axis-parallel rectangles to axis-parallel
    rectangles and can be inverted: the shape of every viewport the viewer
    builds for a rotation of 0, 90, 180 or 270 degrees. *)
Definition upright (m : Matrix) : Prop :=
  (m1 m == 0 /\ m2 m == 0 /\ ~ m0 m == 0 /\ ~ m3 m == 0) \/
  (m0 m == 0 /\ m3 m == 0 /\ ~ m1 m == 0 /\ ~ m2 m == 0).

End Viewer.

(** ** Rectangles on the screen and on the page *)

(** A rectangle on the rendering surface, as the handlers compute it from a
    drag: [left], [top], [width], [height] in CSS pixels. *)
Record ScreenRect : Type := mkScreen {
  r_left : Q;
  r_top : Q;
  r_width : Q;
  r_height : Q
}.

Definition screen_eq (r s : ScreenRect) : Prop :=
  r_left r == r_left s /\ r_top r == r_top s /\
  r_width r == r_width s /\ r_height r == r_height s.

Definition screen_close (tol : Q) (r s : ScreenRect) : Prop :=
  within_tol tol (r_left r) (r_left s) /\ within_tol tol (r_top r) (r_top s) /\
  within_tol tol (r_width r) (r_width s) /\ within_tol tol (r_height r) (r_height s).

(** The rectangle spanned by the two ends of a drag ([mousemove] and
    [mouseup] of both scripts compute it the same way). *)
Definition spanRect (startX startY endX endY : Q) : ScreenRect :=
  {| r_left := Qmin startX endX;
     r_top := Qmin startY endY;
     r_width := Qabs (endX - startX);
     r_height := Qabs (endY - startY) |}.

(** The persisted rectangle of a mark, [pdf_x1 .. pdf_y2]. *)
Record PdfRect : Type := mkPdfRect { x1 : Q; y1 : Q; x2 : Q; y2 : Q }.

Definition canonical (r : PdfRect) : Prop := x1 r <= x2 r /\ y1 r <= y2 r.

Definition pdfrect_eq (r s : PdfRect) : Prop :=
  x1 r == x1 s /\ y1 r == y1 s /\ x2 r == x2 s /\ y2 r == y2 s.

(** ** The overlay controller, [static/pdf-bbox.js]: geometry *)
Module PdfBbox.
Import Viewer.

(** [mouseup] of [ensureOverlay], steps 1 to 6: the drag rectangle [r] is
    scaled to viewport units, sent through the viewer's
    [convertToPdfPoint], flipped on the page height and ordered. *)
Definition normalized (viewport : PageViewport) (pageRect : Box)
    (canvasWidth : Q) (r : ScreenRect) : PdfRect :=
  let pdfHeight := b3 pageRect - b1 pageRect in
  let scale := width viewport / canvasWidth in
  let vp_x1 := r_left r * scale in
  let vp_y1 := r_top r * scale in
  let vp_x2 := (r_left r + r_width r) * scale in
  let vp_y2 := (r_top r + r_height r) * scale in
  let p1 := convertToPdfPoint viewport vp_x1 vp_y1 in
  let p2 := convertToPdfPoint viewport vp_x2 vp_y2 in
  {| x1 := Qmin (fst p1) (fst p2);
     y1 := Qmin (pdfHeight - snd p1) (pdfHeight - snd p2);
     x2 := Qmax (fst p1) (fst p2);
     y2 := Qmax (pdfHeight - snd p1) (pdfHeight - snd p2) |}.

(** [renderBboxes], steps 1 to 4: the stored rectangle is flipped back,
    sent through [convertToViewportPoint] and scaled to the canvas. *)
Definition rendered (viewport : PageViewport) (pageRect : Box)
    (canvasWidth : Q) (s : PdfRect) : ScreenRect :=
  let pdfHeight := b3 pageRect - b1 pageRect in
  let scale := canvasWidth / width viewport in
  let pdf_y1_inverted := pdfHeight - y1 s in
  let pdf_y2_inverted := pdfHeight - y2 s in
  let v1 := convertToViewportPoint viewport (x1 s) pdf_y1_inverted in
  let v2 := convertToViewportPoint viewport (x2 s) pdf_y2_inverted in
  let screen_x1 := fst v1 * scale in
  let screen_y1 := snd v1 * scale in
  let screen_x2 := fst v2 * scale in
  let screen_y2 := snd v2 * scale in
  {| r_left := Qmin screen_x1 screen_x2;
     r_top := Qmin screen_y1 screen_y2;
     r_width := Qabs (screen_x2 - screen_x1);
     r_height := Qabs (screen_y2 - screen_y1) |}.

(** *** Rotation helpers *)

(** How a call of a function ends: with a value, or with an exception. *)
Inductive completion (A : Type) : Type :=
| Return (v : A)
| Throw (error : string).
Arguments Return {A} v.
Arguments Throw {A} error.

(** [((rotation || 0) % 360 + 360) % 360], with JS's truncating [%]. *)
Definition rot360 (rotation : option Z) : Z :=
  Z.rem (Z.rem (default 0%Z rotation) 360 + 360) 360.

Definition normalizeRotation (p : point) (rotation : option Z)
    (width height : Q) : completion point :=
  let rot := rot360 rotation in
  let x := fst p in
  let y := snd p in
  if (rot =? 90)%Z then Return (y, width - x)
  else if (rot =? 180)%Z then Return (width - x, height - y)
  else if (rot =? 270)%Z then Return (height - y, x)
  else Return (x, y).

Definition applyRotation (p : point) (rotation : option Z)
    (width height : Q) : completion point :=
  let rot := rot360 rotation in
  let x := fst p in
  let y := snd p in
  if (rot =? 90)%Z then Return (width - y, x)
  else if (rot =? 180)%Z then Return (width - x, height - y)
  else if (rot =? 270)%Z then Return (y, height - x)
  else Return (x, y).

(** *** Data *)

(** A mark of the selection store. *)
Record Selection : Type := mkSelection {
  schema : string;
  sel_id : string;
  field_id : option string;
  page : Z;
  pdf_x1 : Q;
  pdf_y1 : Q;
  pdf_x2 : Q;
  pdf_y2 : Q;
  page_width : Q;
  page_height : Q;
  from_template : bool;
  confidence : option Q
}.

Definition rect_of (s : Selection) : PdfRect :=
  {| x1 := pdf_x1 s; y1 := pdf_y1 s; x2 := pdf_x2 s; y2 := pdf_y2 s |}.

(** The geometry a template suggestion carries. *)
Record Coords : Type := mkCoords {
  c_page : Z;
  c_pdf_x1 : Q;
  c_pdf_y1 : Q;
  c_pdf_x2 : Q;
  c_pdf_y2 : Q;
  c_page_width : Q;
  c_page_height : Q
}.

Record Suggestion : Type := mkSuggestion {
  coords : Coords;
  s_confidence : Q;
  sample_count : Z
}.

(** The script's [state] object (without [initialized], [config] and the
    iframe handle, which are part of the environment below). *)
Record State : Type := mkState {
  activeFieldId : option string;
  activePageIndex : Z;
  selections : list Selection;
  templateSuggestions : gmap string Suggestion;
  currentIssn : option string;
  journalName : option string
}.

(** The form of the host page: the value of each field element by id, the
    focused element and the [input] events dispatched so far. *)
Record Form : Type := mkForm {
  values : gmap string string;
  focus : option string;
  inputEvents : list string
}.

(** A rectangle drawn on a page overlay (colour and label are presentation
    only and are left out). *)
Record Bbox : Type := mkBbox {
  box : ScreenRect;
  bbox_field : option string;
  active : bool
}.

Record Options : Type := mkOptions {
  fix_hyphenation : bool;
  strip_prefix : bool;
  join_lines : bool;
  merge_by_field : bool
}.

Record Request : Type := mkRequest {
  pdf_file : string;
  req_selections : list Selection;
  options : Options
}.

(** What a handler shows or sends. *)
Inductive Effect : Type :=
| Notify (message level : string)
| Warn (message : string)
| Draw (pageIndex : Z)
| ExtractRequest (endpoint : string) (body : Request)
| TemplateSave (issn journal : string) (fieldId : option string) (c : Coords).

Record World : Type := mkWorld {
  state : State;
  form : Form;
  overlays : gmap Z (list Bbox);
  trace : list Effect
}.

(** The viewer application reached through the iframe. *)
Record Canvas : Type := mkCanvas { offsetWidth : Q; offsetHeight : Q }.

Record PageView : Type := mkPageView {
  viewport : PageViewport;
  pdfPage : option Box;
  canvas : option Canvas
}.

Record App : Type := mkApp {
  app_page : Z;
  getPageView : Z -> option PageView
}.

(** Built-ins and the optional post-processors the host page installs on
    [window]; they are opaque to this script. *)
Record Host : Type := mkHost {
  trim : string -> string;
  processKeywords : option (string -> string);
  processAnnotation : option (string -> string -> string);
  extractDOI : option (string -> option string);
  extractUDC : option (string -> option string);
  processFunding : option (string -> string -> string)
}.

(** The [config] object given to [init]. *)
Record Config : Type := mkConfig {
  extractEndpoint : option string;
  pdfFile : option string;
  applyExtractedText : option (option string -> string -> Form -> Form)
}.

(** *** Applying extracted text to a field *)

Definition newline : string := String (Ascii.ascii_of_nat 10) EmptyString.

Definition isKeywords (fieldId : string) : bool :=
  String.eqb fieldId "keywords" || String.eqb fieldId "keywords_en".

Definition isReferences (fieldId : string) : bool :=
  String.eqb fieldId "references_ru" || String.eqb fieldId "references_en".

Definition orElse (candidate : option string) (value : string) : string :=
  match candidate with
  | Some v => if String.eqb v "" then value else v
  | None => value
  end.

(** The text after the field-specific post-processing. *)
Definition processedValue (h : Host) (fieldId text : string) : string :=
  let value := trim h text in
  if isKeywords fieldId then
    match processKeywords h with Some f => f value | None => value end
  else if isReferences fieldId then value
  else if String.eqb fieldId "annotation" || String.eqb fieldId "annotation_en" then
    match processAnnotation h with
    | Some f => f value (if String.eqb fieldId "annotation_en" then "en" else "ru")
    | None => value
    end
  else if String.eqb fieldId "doi" then
    match extractDOI h with Some f => orElse (f value) value | None => value end
  else if String.eqb fieldId "udc" then
    match extractUDC h with Some f => orElse (f value) value | None => value end
  else if String.eqb fieldId "funding" || String.eqb fieldId "funding_en" then
    match processFunding h with
    | Some f => f value (if String.eqb fieldId "funding_en" then "en" else "ru")
    | None => value
    end
  else value.

Definition separator (fieldId : string) : string :=
  if isReferences fieldId then newline
  else if isKeywords fieldId then ", "
  else " ".

Definition defaultApplyExtractedText (h : Host) (fieldId : option string)
    (text : string) (f : Form) : Form :=
  match fieldId with
  | None => f
  | Some fid =>
      if String.eqb fid "" || String.eqb text "" then f
      else
        match values f !! fid with
        | None => f
        | Some current =>
            let value := processedValue h fid text in
            let updated :=
              if negb (String.eqb (trim h current) "")
              then trim h current +:+ separator fid +:+ value
              else value in
            {| values := <[fid := updated]> (values f);
               focus := Some fid;
               inputEvents := inputEvents f ++ [fid] |}
        end
  end.

(** *** The handlers *)

Definition emit (e : Effect) (w : World) : World :=
  {| state := state w; form := form w; overlays := overlays w;
     trace := trace w ++ [e] |}.

Definition notify (message level : string) (w : World) : World :=
  emit (Notify message level) w.

Definition withSelections (l : list Selection) (w : World) : World :=
  {| state := {| activeFieldId := activeFieldId (state w);
                 activePageIndex := activePageIndex (state w);
                 selections := l;
                 templateSuggestions := templateSuggestions (state w);
                 currentIssn := currentIssn (state w);
                 journalName := journalName (state w) |};
     form := form w; overlays := overlays w; trace := trace w |}.

Definition withActivePage (i : Z) (w : World) : World :=
  {| state := {| activeFieldId := activeFieldId (state w);
                 activePageIndex := i;
                 selections := selections (state w);
                 templateSuggestions := templateSuggestions (state w);
                 currentIssn := currentIssn (state w);
                 journalName := journalName (state w) |};
     form := form w; overlays := overlays w; trace := trace w |}.

Definition withForm (f : Form) (w : World) : World :=
  {| state := state w; form := f; overlays := overlays w; trace := trace w |}.

Definition withOverlay (i : Z) (boxes : list Bbox) (w : World) : World :=
  {| state := state w; form := form w;
     overlays := <[i := boxes]> (overlays w); trace := trace w |}.

(** The pointer state kept by one page overlay: [drag] and the page the
    overlay belongs to ([overlay.dataset.pageIndex]). *)
Record Drag : Type := mkDrag { startX : Q; startY : Q; el : ScreenRect }.

Record Overlay : Type := mkOverlay { pageIndex : Z; drag : option Drag }.

(** A mouse event together with the overlay's bounding rectangle at the
    time of the event. *)
Record MouseEvent : Type := mkMouseEvent {
  button : Z;
  clientX : Q;
  clientY : Q;
  rectLeft : Q;
  rectTop : Q
}.

Definition getOverlayPoint (e : MouseEvent) : point :=
  (clientX e - rectLeft e, clientY e - rectTop e).

Definition selectFieldNotice : string := "Выберите поле для bbox.".

Definition mousedown (w : World) (ov : Overlay) (e : MouseEvent)
  : World * Overlay :=
  if negb (button e =? 0)%Z then (w, ov)
  else if negb (truthy (activeFieldId (state w))) then
    (notify selectFieldNotice "info" w, ov)
  else
    let p := getOverlayPoint e in
    (w, {| pageIndex := pageIndex ov;
           drag := Some {| startX := fst p; startY := snd p;
                           el := {| r_left := fst p; r_top := snd p;
                                    r_width := 0; r_height := 0 |} |} |}).

Definition mousemove (ov : Overlay) (e : MouseEvent) : Overlay :=
  match drag ov with
  | None => ov
  | Some d =>
      let p := getOverlayPoint e in
      {| pageIndex := pageIndex ov;
         drag := Some {| startX := startX d; startY := startY d;
                         el := spanRect (startX d) (startY d) (fst p) (snd p) |} |}
  end.

(** [renderBboxes]: redraws the overlay of the viewer's current page from
    the store. *)
Definition renderBboxes (app : option App) (w : World) : World :=
  match app with
  | None => w
  | Some a =>
      let pageIndex := (app_page a - 1)%Z in
      let w := withActivePage pageIndex w in
      match getPageView a pageIndex with
      | None => w
      | Some pageView =>
          match canvas pageView with
          | None => w
          | Some c =>
              match pdfPage pageView with
              | None => withOverlay pageIndex [] w
              | Some pageRect =>
                  let boxes :=
                    (fun s : Selection =>
                       {| box := rendered (viewport pageView) pageRect
                                   (offsetWidth c) (rect_of s);
                          bbox_field := field_id s;
                          active := bool_decide
                                      (field_id s = activeFieldId (state w)) |})
                    <$> filter (fun s : Selection => page s = pageIndex)
                          (selections (state w)) in
                  emit (Draw pageIndex) (withOverlay pageIndex boxes w)
              end
          end
      end
  end.

Definition fieldOptions (fieldId : option string) : Options :=
  if bool_decide (fieldId = Some "references_ru")
     || bool_decide (fieldId = Some "references_en")
  then {| fix_hyphenation := true; strip_prefix := false;
          join_lines := false; merge_by_field := false |}
  else {| fix_hyphenation := true; strip_prefix := true;
          join_lines := true; merge_by_field := false |}.

Section Handlers.

Variables (host : Host) (config : Config).

Definition extractEndpointOf : string :=
  default "/api/pdf-extract-text" (extractEndpoint config).

Definition applyFn : option string -> string -> Form -> Form :=
  default (defaultApplyExtractedText host) (applyExtractedText config).

Definition extractRequest (selection : Selection) : Effect :=
  ExtractRequest extractEndpointOf
    {| pdf_file := default "" (pdfFile config);
       req_selections := [selection];
       options := fieldOptions (field_id selection) |}.

(** [saveToTemplate] up to its request. *)
Definition saveToTemplate (fieldId : option string) (c : Coords)
    (w : World) : World :=
  match currentIssn (state w) with
  | Some issn =>
      if negb (truthy (Some issn)) || negb (truthy fieldId) then w
      else emit (TemplateSave issn (default "" (journalName (state w)))
                   fieldId c) w
  | None => w
  end.

(** The mark a completed drag stores (step 7 of [mouseup]). *)
Definition dragSelection (newId : string) (fieldId : option string)
    (pageIdx : Z) (pageView : PageView) (pageRect : Box) (c : Canvas)
    (r : ScreenRect) : Selection :=
  let n := normalized (viewport pageView) pageRect (offsetWidth c) r in
  {| schema := "pdfbbox-v2";
     sel_id := newId;
     field_id := fieldId;
     page := pageIdx;
     pdf_x1 := x1 n;
     pdf_y1 := y1 n;
     pdf_x2 := x2 n;
     pdf_y2 := y2 n;
     page_width := b2 pageRect - b0 pageRect;
     page_height := b3 pageRect - b1 pageRect;
     from_template := false;
     confidence := None |}.

(** [mouseup], up to the point where it waits for the extraction
    response.  The third component is the mark whose response is
    awaited, if a request was sent.  A page view without a canvas makes
    the handler stop with a [TypeError] after the drag has been cleared,
    which leaves the same state as the early returns. *)
Definition mouseup (app : option App) (newId : string) (w : World)
    (ov : Overlay) (e : MouseEvent) : World * Overlay * option Selection :=
  match drag ov with
  | None => (w, ov, None)
  | Some d =>
      let p := getOverlayPoint e in
      let r := spanRect (startX d) (startY d) (fst p) (snd p) in
      let ov' := {| pageIndex := pageIndex ov; drag := None |} in
      if Qltb (r_width r) 4 || Qltb (r_height r) 4 then (w, ov', None)
      else
        match app ≫= (fun a => getPageView a (pageIndex ov)) with
        | None => (w, ov', None)
        | Some pageViewLocal =>
            match pdfPage pageViewLocal, canvas pageViewLocal with
            | Some pageRect, Some c =>
                let selection :=
                  dragSelection newId (activeFieldId (state w))
                    (pageIndex ov) pageViewLocal pageRect c r in
                let w1 := withSelections
                            (selections (state w) ++ [selection]) w in
                let w2 := renderBboxes app w1 in
                (emit (extractRequest selection) w2, ov', Some selection)
            | _, _ => (w, ov', None)
            end
        end
  end.

(** How the awaited request ends: the [fetch] or the decoding of its
    body fails, or a body arrives whose [extracted[0].text] may be
    missing. *)
Inductive Response : Type :=
| Rejected
| Resolved (text : option string).

Definition coordsOf (s : Selection) : Coords :=
  {| c_page := page s;
     c_pdf_x1 := pdf_x1 s; c_pdf_y1 := pdf_y1 s;
     c_pdf_x2 := pdf_x2 s; c_pdf_y2 := pdf_y2 s;
     c_page_width := page_width s; c_page_height := page_height s |}.

(** The rest of [mouseup], run when the response arrives. *)
Definition mouseup_response (selection : Selection) (resp : Response)
    (w : World) : World :=
  match resp with
  | Rejected => emit (Warn "PDF extract failed:") w
  | Resolved extracted =>
      if truthy extracted then
        let w1 := withForm (applyFn (field_id selection)
                              (default "" extracted) (form w)) w in
        if truthy (currentIssn (state w1))
        then saveToTemplate (field_id selection) (coordsOf selection) w1
        else w1
      else w
  end.

Definition suggestionSelection (newId fieldId : string) (sg : Suggestion)
  : Selection :=
  {| schema := "pdfbbox-v2";
     sel_id := newId;
     field_id := Some fieldId;
     page := c_page (coords sg);
     pdf_x1 := c_pdf_x1 (coords sg);
     pdf_y1 := c_pdf_y1 (coords sg);
     pdf_x2 := c_pdf_x2 (coords sg);
     pdf_y2 := c_pdf_y2 (coords sg);
     page_width := c_page_width (coords sg);
     page_height := c_page_height (coords sg);
     from_template := true;
     confidence := Some (s_confidence sg) |}.

(** [applySuggestion], up to the point where it waits for the
    extraction response. *)
Definition applySuggestion (app : option App) (newId fieldId : string)
    (w : World) : World * option Selection :=
  match templateSuggestions (state w) !! fieldId with
  | None =>
      (notify ("Нет шаблона для поля " +:+ fieldId) "error" w, None)
  | Some suggestion =>
      match app with
      | None => (w, None)
      | Some _ =>
          let selection := suggestionSelection newId fieldId suggestion in
          let kept := filter (fun s : Selection => field_id s <> Some fieldId)
                        (selections (state w)) in
          let w1 := withSelections (kept ++ [selection]) w in
          let w2 := renderBboxes app w1 in
          (emit (extractRequest selection) w2, Some selection)
      end
  end.

(** The rest of [applySuggestion], run when the response arrives; the
    percentage shown in the notice is [Math.round(confidence * 100)]. *)
Definition appliedNotice (c : option Q) : string :=
  "Шаблон применён (уверенность: "
  +:+ pretty (Qfloor (default 0 c * 100 + (1 # 2))) +:+ "%)".

Definition applySuggestion_response (selection : Selection)
    (resp : Response) (w : World) : World :=
  match resp with
  | Rejected => emit (Warn "Failed to apply suggestion:") w
  | Resolved extracted =>
      if truthy extracted then
        notify (appliedNotice (confidence selection)) "info"
          (withForm (applyFn (field_id selection)
                       (default "" extracted) (form w)) w)
      else w
  end.

(** A completed drag: the button goes down at [eDown] and is released
    at [eUp]. *)
Definition gesture (app : option App) (newId : string) (w : World)
    (ov : Overlay) (eDown eUp : MouseEvent)
  : World * Overlay * option Selection :=
  let wo := mousedown w ov eDown in
  mouseup app newId (fst wo) (snd wo) eUp.

End Handlers.

(** *** The remaining controls of the overlay controller *)

Definition withActiveField (fieldId : option string) (w : World) : World :=
  {| state := {| activeFieldId := fieldId;
                 activePageIndex := activePageIndex (state w);
                 selections := selections (state w);
                 templateSuggestions := templateSuggestions (state w);
                 currentIssn := currentIssn (state w);
                 journalName := journalName (state w) |};
     form := form w; overlays := overlays w; trace := trace w |}.

Definition withTemplates (m : gmap string Suggestion) (w : World) : World :=
  {| state := {| activeFieldId := activeFieldId (state w);
                 activePageIndex := activePageIndex (state w);
                 selections := selections (state w);
                 templateSuggestions := m;
                 currentIssn := currentIssn (state w);
                 journalName := journalName (state w) |};
     form := form w; overlays := overlays w; trace := trace w |}.

Definition withIssn (issn : option string) (w : World) : World :=
  {| state := {| activeFieldId := activeFieldId (state w);
                 activePageIndex := activePageIndex (state w);
                 selections := selections (state w);
                 templateSuggestions := templateSuggestions (state w);
                 currentIssn := issn;
                 journalName := journalName (state w) |};
     form := form w; overlays := overlays w; trace := trace w |}.

Definition withJournal (name : option string) (w : World) : World :=
  {| state := {| activeFieldId := activeFieldId (state w);
                 activePageIndex := activePageIndex (state w);
                 selections := selections (state w);
                 templateSuggestions := templateSuggestions (state w);
                 currentIssn := currentIssn (state w);
                 journalName := name |};
     form := form w; overlays := overlays w; trace := trace w |}.

(** [setActiveField], without the label and the button highlighting. *)
Definition setActiveField (fieldId : option string) (w : World) : World :=
  if truthy fieldId then withActiveField fieldId w else w.

(** [setIssn] of the exported object; a missing journal name is [""]. *)
Definition setIssn (issn journal : option string) (w : World) : World :=
  withJournal (Some (default "" journal)) (withIssn issn w).

Definition clearPageSelections (app : option App) (w : World) : World :=
  match app with
  | None => w
  | Some _ =>
      renderBboxes app
        (withSelections
           (filter (fun s : Selection => page s <> activePageIndex (state w))
              (selections (state w))) w)
  end.

(** The [keydown] listener installed by [bindEscape].  [pdfIframe] is
    [None] when the page has no viewer iframe, and holds the viewer
    application reached through the iframe otherwise. *)
Definition bindEscape (key : string) (pdfIframe : option (option App))
    (w : World) : World :=
  if negb (String.eqb key "Escape") then w
  else
    match pdfIframe with
    | None => w
    | Some app =>
        match selections (state w) with
        | [] => w
        | _ :: _ => clearPageSelections app w
        end
    end.

(** [waitForPdfApp]: every 250 ms the timer looks at the iframe.  A tick
    finds the iframe detached from the document, the viewer still loading,
    or the viewer ready.  [poll] runs the ticks that are left. *)
Inductive Probe : Type :=
| Detached
| Loading
| Ready (app : App).

Fixpoint poll (probe : nat -> Probe) (attempts ticks : nat) : option App :=
  match ticks with
  | O => None
  | S ticks' =>
      let attempts := S attempts in
      match probe attempts with
      | Detached => None
      | Ready app => Some app
      | Loading =>
          if (120 <? attempts)%nat then None else poll probe attempts ticks'
      end
  end.

Definition waitForPdfApp (probe : nat -> Probe) : option App :=
  poll probe 0 121.

(** [loadTemplateSuggestions], up to its request: the ISSN it asks for. *)
Definition loadTemplateSuggestions (issn : option string) (w : World)
  : World * option string :=
  if truthy issn then (withIssn issn w, issn) else (w, None).

(** The answer to the request: the call fails, or a body arrives with its
    [suggestions] and [journal_name], either of which may be missing. *)
Inductive LoadResponse : Type :=
| LoadRejected
| LoadResolved (suggestions : option (gmap string Suggestion))
    (journal_name : option string).

Definition loadTemplateSuggestions_response (resp : LoadResponse) (w : World)
  : World :=
  match resp with
  | LoadRejected => emit (Warn "Failed to load template suggestions:") w
  | LoadResolved (Some m) name =>
      if (0 <? size m)%nat
      then withJournal (Some (if truthy name then default "" name else ""))
             (withTemplates m w)
      else w
  | LoadResolved None _ => w
  end.

(** [showSuggestionsPanel]: without suggestions it only notifies; the panel
    it builds otherwise is markup and is left out. *)
Definition showSuggestionsPanel (w : World) : World :=
  if (0 <? size (templateSuggestions (state w)))%nat then w
  else notify "Нет доступных шаблонов для этого журнала" "info" w.

Definition quote : string := String (Ascii.ascii_of_nat 34) EmptyString.

(** [resetFieldTemplate], up to its request; [confirmed] is the answer of
    the user to the confirmation dialog.  The second component is the ISSN
    and the field sent to the server. *)
Definition resetFieldTemplate (fieldId : option string) (confirmed : bool)
    (w : World) : World * option (string * string) :=
  if negb (truthy (currentIssn (state w))) || negb (truthy fieldId)
  then (notify "Не удалось сбросить шаблон" "error" w, None)
  else if negb confirmed then (w, None)
  else (w, Some (default "" (currentIssn (state w)), default "" fieldId)).

Inductive ResetResponse : Type :=
| ResetRejected
| ResetResolved (success : bool) (error : option string).

Definition resetFieldTemplate_response (app : option App) (fieldId : string)
    (resp : ResetResponse) (w : World) : World :=
  match resp with
  | ResetRejected =>
      notify "Ошибка сброса шаблона" "error"
        (emit (Warn "Failed to reset field template:") w)
  | ResetResolved true _ =>
      let w1 := withTemplates (delete fieldId (templateSuggestions (state w))) w in
      let w2 := withSelections
                  (filter (fun s : Selection => field_id s <> Some fieldId)
                     (selections (state w1))) w1 in
      let w3 := renderBboxes app w2 in
      showSuggestionsPanel
        (notify ("Шаблон для " +:+ quote +:+ fieldId +:+ quote +:+ " сброшен")
           "info" w3)
  | ResetResolved false error =>
      notify (if truthy error then default "" error
              else "Ошибка сброса шаблона") "error" w
  end.

(** [resetAllTemplates], up to its request. *)
Definition resetAllTemplates (confirmed : bool) (w : World)
  : World * option string :=
  if negb (truthy (currentIssn (state w)))
  then (notify "ISSN журнала не установлен" "error" w, None)
  else if negb confirmed then (w, None)
  else (w, currentIssn (state w)).

Definition resetAllTemplates_response (app : option App) (resp : ResetResponse)
    (w : World) : World :=
  match resp with
  | ResetRejected => emit (Warn "Failed to reset all templates:") w
  | ResetResolved true _ =>
      notify "Все шаблоны удалены" "info"
        (renderBboxes app (withSelections [] (withTemplates ∅ w)))
  | ResetResolved false _ => w
  end.

(** [applyAllSuggestions]: [keys] is [Object.keys(state.templateSuggestions)]
    in the order the object lists them, [newId] the identifier drawn for
    the mark of each field and [resp] the answer to each field's request.
    The pause between two fields is left out. *)
Fixpoint applyEach (host : Host) (config : Config) (app : option App)
    (newId : string -> string) (resp : string -> Response)
    (keys : list string) (w : World) : World :=
  match keys with
  | [] => w
  | fieldId :: rest =>
      let out := applySuggestion config app (newId fieldId) fieldId w in
      let w1 :=
        match snd out with
        | Some selection =>
            applySuggestion_response host config selection (resp fieldId) (fst out)
        | None => fst out
        end in
      applyEach host config app newId resp rest w1
  end.

Definition applyAllSuggestions (host : Host) (config : Config)
    (app : option App) (newId : string -> string) (resp : string -> Response)
    (keys : list string) (w : World) : World :=
  match keys with
  | [] => notify "Нет доступных шаблонов" "error" w
  | _ :: _ =>
      notify "Все шаблоны применены" "info"
        (applyEach host config app newId resp keys
           (notify ("Применение " +:+ pretty (length keys) +:+ " шаблонов...")
              "info" w))
  end.

End PdfBbox.

(** ** The stand-alone selection page ([initSelectionHandlers]) *)
Module SelectionPage.
Import Viewer.

Record Selection : Type := mkSelection {
  page : Z;
  screen_x1 : Q;
  screen_y1 : Q;
  screen_x2 : Q;
  screen_y2 : Q;
  pdf_x1 : Q;
  pdf_y1 : Q;
  pdf_x2 : Q;
  pdf_y2 : Q;
  field_id : option string;
  text : string
}.

Definition rect_of (s : Selection) : PdfRect :=
  {| x1 := pdf_x1 s; y1 := pdf_y1 s; x2 := pdf_x2 s; y2 := pdf_y2 s |}.

(** The canvas of the rendered page: its bounding rectangle on the screen
    and its pixel size. *)
Record Canvas : Type := mkCanvas {
  rectLeft : Q;
  rectTop : Q;
  canvasWidth : Q;
  canvasHeight : Q
}.

(** [currentPageView]: the page box [page.view], the viewport size and
    the canvas. *)
Record PageView : Type := mkPageView {
  pageSize : Box;
  viewportWidth : Q;
  viewportHeight : Q;
  canvas : option Canvas
}.

(** The script's variables; [errors] collects the messages given to
    [showError]. *)
Record State : Type := mkState {
  currentPage : Z;
  selections : list Selection;
  currentPageView : option PageView;
  isDragging : bool;
  dragStart : option point;
  dragRect : option ScreenRect;
  activeFieldId : option string;
  errors : list string
}.

Record MouseEvent : Type := mkMouseEvent {
  clientX : Q;
  clientY : Q;
  onPage : bool
}.

Definition clampValue (value min max : Q) : Q := Qmax min (Qmin max value).

Definition getCanvasCoords (event : MouseEvent) (c : Canvas) : point :=
  (clampValue (clientX event - rectLeft c) 0 (canvasWidth c),
   clampValue (clientY event - rectTop c) 0 (canvasHeight c)).

Definition mousedown (st : State) (event : MouseEvent) : State :=
  match currentPageView st with
  | None => st
  | Some pv =>
      match canvas pv with
      | None => st
      | Some c =>
          if negb (onPage event) then st
          else
            let coords := getCanvasCoords event c in
            {| currentPage := currentPage st;
               selections := selections st;
               currentPageView := currentPageView st;
               isDragging := true;
               dragStart := Some coords;
               dragRect := Some {| r_left := fst coords; r_top := snd coords;
                                   r_width := 0; r_height := 0 |};
               activeFieldId := activeFieldId st;
               errors := errors st |}
      end
  end.

Definition selectBlockNotice : string := "Выберите блок для сохранения текста".

(** The state after the drag has been cleared, with the given store and
    error messages. *)
Definition released (st : State) (sels : list Selection) (errs : list string)
  : State :=
  {| currentPage := currentPage st;
     selections := sels;
     currentPageView := currentPageView st;
     isDragging := false;
     dragStart := None;
     dragRect := None;
     activeFieldId := activeFieldId st;
     errors := errs |}.

(** The mark the [mouseup] handler builds from the ordered corners of the
    drag. *)
Definition dragSelection (st : State) (pv : PageView) (sx1 sy1 sx2 sy2 : Q)
  : Selection :=
  let pdf_x1 := (sx1 / viewportWidth pv) * b2 (pageSize pv) in
  let pdf_x2 := (sx2 / viewportWidth pv) * b2 (pageSize pv) in
  let pdf_y1 := b3 (pageSize pv) - (sy2 / viewportHeight pv) * b3 (pageSize pv) in
  let pdf_y2 := b3 (pageSize pv) - (sy1 / viewportHeight pv) * b3 (pageSize pv) in
  {| page := currentPage st;
     screen_x1 := sx1;
     screen_y1 := sy1;
     screen_x2 := sx2;
     screen_y2 := sy2;
     pdf_x1 := Qmin pdf_x1 pdf_x2;
     pdf_y1 := pdf_y1;
     pdf_x2 := Qmax pdf_x1 pdf_x2;
     pdf_y2 := pdf_y2;
     field_id := activeFieldId st;
     text := "" |}.

Definition mouseup (st : State) (event : MouseEvent) : State :=
  if negb (isDragging st) then st
  else
    match dragStart st, currentPageView st with
    | Some start, Some pv =>
        match canvas pv with
        | None => st
        | Some c =>
            let coords := getCanvasCoords event c in
            let sx1 := Qmin (fst start) (fst coords) in
            let sy1 := Qmin (snd start) (snd coords) in
            let sx2 := Qmax (fst start) (fst coords) in
            let sy2 := Qmax (snd start) (snd coords) in
            if Qltb (Qabs (sx2 - sx1)) 8 || Qltb (Qabs (sy2 - sy1)) 8
            then released st (selections st) (errors st)
            else if negb (truthy (activeFieldId st))
            then released st (selections st) (errors st ++ [selectBlockNotice])
            else released st
                   (selections st ++ [dragSelection st pv sx1 sy1 sx2 sy2])
                   (errors st)
        end
    | _, _ => st
    end.

Definition gesture (st : State) (eDown eUp : MouseEvent) : State :=
  mouseup (mousedown st eDown) eUp.

(** *** The other controls of the selection page *)

Definition withPage (p : Z) (view : option PageView) (st : State) : State :=
  {| currentPage := p;
     selections := selections st;
     currentPageView := view;
     isDragging := isDragging st;
     dragStart := dragStart st;
     dragRect := dragRect st;
     activeFieldId := activeFieldId st;
     errors := errors st |}.

(** The loaded document: its number of pages and the view [renderPage]
    builds for each page. *)
Record Doc : Type := mkDoc {
  numPages : Z;
  viewOf : Z -> PageView
}.

Definition renderPage (pdfDoc : option Doc) (st : State) : State :=
  match pdfDoc with
  | None => st
  | Some doc => withPage (currentPage st) (Some (viewOf doc (currentPage st))) st
  end.

Definition prevPage (pdfDoc : option Doc) (st : State) : State :=
  match pdfDoc with
  | None => st
  | Some _ =>
      if (currentPage st <=? 0)%Z then st
      else renderPage pdfDoc
             (withPage (currentPage st - 1) (currentPageView st) st)
  end.

Definition nextPage (pdfDoc : option Doc) (st : State) : State :=
  match pdfDoc with
  | None => st
  | Some doc =>
      if (numPages doc - 1 <=? currentPage st)%Z then st
      else renderPage pdfDoc
             (withPage (currentPage st + 1) (currentPageView st) st)
  end.

(** [renderSelectionsForPage]: the overlays drawn on the current page, or
    nothing at all when no page is shown. *)
Definition renderSelectionsForPage (st : State) : option (list ScreenRect) :=
  match currentPageView st with
  | None => None
  | Some _ =>
      Some ((fun sel : Selection =>
               {| r_left := Qmin (screen_x1 sel) (screen_x2 sel);
                  r_top := Qmin (screen_y1 sel) (screen_y2 sel);
                  r_width := Qabs (screen_x2 sel - screen_x1 sel);
                  r_height := Qabs (screen_y2 sel - screen_y1 sel) |})
            <$> filter (fun sel : Selection => page sel = currentPage st)
                  (selections st))
  end.

Definition newline : string := String (Ascii.ascii_of_nat 10) EmptyString.

(** [appendToField]: [areas] holds the value of each text area by element
    id, [trim] is the built-in [String.prototype.trim]. *)
Definition appendToField (trim : string -> string) (fieldId : option string)
    (text : option string) (areas : gmap string string) : gmap string string :=
  if negb (truthy fieldId) then areas
  else
    let key := "field-" +:+ default "" fieldId in
    match areas !! key with
    | None => areas
    | Some value =>
        let cleaned := trim (if truthy text then default "" text else "") in
        if String.eqb cleaned "" then areas
        else if negb (String.eqb value "")
             then <[key := value +:+ newline +:+ cleaned]> areas
             else <[key := cleaned]> areas
    end.

Definition withText (t : string) (s : Selection) : Selection :=
  {| page := page s;
     screen_x1 := screen_x1 s; screen_y1 := screen_y1 s;
     screen_x2 := screen_x2 s; screen_y2 := screen_y2 s;
     pdf_x1 := pdf_x1 s; pdf_y1 := pdf_y1 s;
     pdf_x2 := pdf_x2 s; pdf_y2 := pdf_y2 s;
     field_id := field_id s;
     text := t |}.

(** The loop of [extractText] over the answer: the item at each position
    gives its text to the mark at the same position and to the text area of
    the mark's field; [items] holds [item.text], or nothing for a missing
    item. *)
Fixpoint extractText_response (trim : string -> string)
    (active : option string) (items : list (option string))
    (sels : list Selection) (areas : gmap string string)
  : list Selection * gmap string string :=
  match items, sels with
  | item :: items', s :: sels' =>
      let t := if truthy item then default "" item else "" in
      let fieldId := if truthy (field_id s) then field_id s else active in
      let areas' := if truthy fieldId
                    then appendToField trim fieldId (Some t) areas
                    else areas in
      let rest := extractText_response trim active items' sels' areas' in
      (withText t s :: fst rest, snd rest)
  | _, _ => (sels, areas)
  end.

End SelectionPage.

(** ** Helpers of the form script ([tmp_process_annotation.js]) *)
Module TextTools.

Definition lowerAscii (c : Ascii.ascii) : Ascii.ascii :=
  let n := Ascii.nat_of_ascii c in
  if ((65 <=? n)%nat && (n <=? 90)%nat)%bool
  then Ascii.ascii_of_nat (n + 32) else c.

Fixpoint startsWithCI (pattern s : string) : bool :=
  match pattern, s with
  | EmptyString, _ => true
  | String p pattern', String c s' =>
      Ascii.eqb p (lowerAscii c) && startsWithCI pattern' s'
  | String _ _, EmptyString => false
  end.

(** The test [/^(https?:\/\/|doi\.org\/|doi:\s*|http:\/\/dx\.doi\.org\/)/i]. *)
Definition doiUrlPattern (s : string) : bool :=
  startsWithCI "http://" s || startsWithCI "https://" s
  || startsWithCI "doi.org/" s || startsWithCI "doi:" s
  || startsWithCI "http://dx.doi.org/" s.

(** The body of the loop of [mergeDoiUrlWithReferences]: [result] is the
    array built so far. *)
Definition mergeStep (trim : string -> string) (result : list string)
    (ref : string) : list string :=
  let cleaned := trim ref in
  if String.eqb cleaned "" then result
  else
    match last result with
    | Some entry =>
        if doiUrlPattern cleaned
        then removelast result ++ [entry +:+ " " +:+ cleaned]
        else result ++ [cleaned]
    | None => result ++ [cleaned]
    end.

Definition mergeDoiUrlWithReferences (trim : string -> string)
    (refs : list string) : list string :=
  match refs with
  | [] => refs
  | _ :: _ => fold_left (mergeStep trim) refs []
  end.

(** [getNextAuthorIndex]: [indices] holds, for each author item of the
    page, the number [parseInt] reads from its [data-author-index], or
    nothing when it reads none. *)
Definition getNextAuthorIndex (indices : list (option Z)) : Z :=
  (fold_left
     (fun maxIndex item =>
        match item with
        | Some index => if (maxIndex <? index)%Z then index else maxIndex
        | None => maxIndex
        end)
     indices (-1) + 1)%Z.

End TextTools.

(** ** Predicates on marks *)

(** The text an item of the extraction answer carries. *)
Definition itemText (item : option string) : string :=
  if truthy item then default "" item else "".



(** The marks [applyAllSuggestions] builds: one for each key that has a
    suggestion, in the order of the keys. *)
Definition templateMarks (newId : string -> string)
    (templates : gmap string PdfBbox.Suggestion) (keys : list string)
  : list PdfBbox.Selection :=
  omap (fun k => PdfBbox.suggestionSelection (newId k) k <$> templates !! k) keys.

Definition point_eq (p q : point) : Prop := fst p == fst q /\ snd p == snd q.

Definition canonicalMark (s : PdfBbox.Selection) : Prop :=
  canonical (PdfBbox.rect_of s).

Definition canonicalMark' (s : SelectionPage.Selection) : Prop :=
  canonical (SelectionPage.rect_of s).

Definition sameRect (s t : PdfBbox.Selection) : Prop :=
  pdfrect_eq (PdfBbox.rect_of s) (PdfBbox.rect_of t).

Definition sameRect' (s t : SelectionPage.Selection) : Prop :=
  pdfrect_eq (SelectionPage.rect_of s) (SelectionPage.rect_of t).

(** ** A concrete page: A4 at scale 2 *)
Module Scenario.
Import Viewer.

(** A page of 595 x 842 points. *)
Definition a4 : Box := mkBox 0 0 595 842.

Definition isWhite (c : Ascii.ascii) : bool :=
  let n := Ascii.nat_of_ascii c in
  ((9 <=? n)%nat && (n <=? 13)%nat) || (n =? 32)%nat.

Fixpoint trimStart (s : string) : string :=
  match s with
  | String c rest => if isWhite c then trimStart rest else s
  | EmptyString => s
  end.

(** [trim] on ASCII text. *)
Definition asciiTrim (s : string) : string :=
  String.rev (trimStart (String.rev (trimStart s))).

Definition host : PdfBbox.Host :=
  {| PdfBbox.trim := asciiTrim;
     PdfBbox.processKeywords := None;
     PdfBbox.processAnnotation := None;
     PdfBbox.extractDOI := None;
     PdfBbox.extractUDC := None;
     PdfBbox.processFunding := None |}.

Definition config : PdfBbox.Config :=
  {| PdfBbox.extractEndpoint := None;
     PdfBbox.pdfFile := Some "article.pdf";
     PdfBbox.applyExtractedText := None |}.

(** The viewer showing the page on a canvas of 1190 x 1684 pixels. *)
Definition pageViewAt (vp : PageViewport) : PdfBbox.PageView :=
  {| PdfBbox.viewport := vp;
     PdfBbox.pdfPage := Some a4;
     PdfBbox.canvas := Some (PdfBbox.mkCanvas 1190 1684) |}.

Definition viewer (vp : PageViewport) : PdfBbox.App :=
  {| PdfBbox.app_page := 1;
     PdfBbox.getPageView :=
       fun i => if (i =? 0)%Z then Some (pageViewAt vp) else None |}.

Definition formOf (l : list (string * string)) : PdfBbox.Form :=
  {| PdfBbox.values := list_to_map l;
     PdfBbox.focus := None;
     PdfBbox.inputEvents := [] |}.

Definition worldOf (field : option string) (marks : list PdfBbox.Selection)
    (suggestions : list (string * PdfBbox.Suggestion)) : PdfBbox.World :=
  {| PdfBbox.state :=
       {| PdfBbox.activeFieldId := field;
          PdfBbox.activePageIndex := 0;
          PdfBbox.selections := marks;
          PdfBbox.templateSuggestions := list_to_map suggestions;
          PdfBbox.currentIssn := None;
          PdfBbox.journalName := None |};
     PdfBbox.form := formOf [("title", ""); ("keywords", "alpha")];
     PdfBbox.overlays := ∅;
     PdfBbox.trace := [] |}.

(** The viewport the viewer builds for the page at scale 2, unrotated. *)
Definition a4Viewport : PageViewport :=
  {| width := 1190; height := 1684; transform := mkMatrix 2 0 0 (-2) 0 1684 |}.

Definition idle : PdfBbox.Overlay :=
  {| PdfBbox.pageIndex := 0; PdfBbox.drag := None |}.

(** A mark drawn by hand for the title, one for the DOI, and a suggestion
    for the title. *)
Definition manualTitle : PdfBbox.Selection :=
  PdfBbox.mkSelection "pdfbbox-v2" "m0" (Some "title") 0 50 50 150 75 595 842
    false None.

Definition manualDoi : PdfBbox.Selection :=
  PdfBbox.mkSelection "pdfbbox-v2" "m2" (Some "doi") 0 50 100 150 110 595 842
    false None.

Definition titleSuggestion : PdfBbox.Suggestion :=
  {| PdfBbox.coords := PdfBbox.mkCoords 0 60 40 160 70 595 842;
     PdfBbox.s_confidence := 4 # 5;
     PdfBbox.sample_count := 3 |}.


(** A mark on the second page. *)
Definition otherPage : PdfBbox.Selection :=
  PdfBbox.mkSelection "pdfbbox-v2" "m4" (Some "title") 1 50 50 150 75 595 842
    false None.

(** The overlay after the button went down at (100,100). *)
Definition dragging : PdfBbox.Overlay :=
  {| PdfBbox.pageIndex := 0;
     PdfBbox.drag := Some (PdfBbox.mkDrag 100 100 (mkScreen 100 100 0 0)) |}.

Definition pointer (x y : Q) : PdfBbox.MouseEvent :=
  {| PdfBbox.button := 0; PdfBbox.clientX := x; PdfBbox.clientY := y;
     PdfBbox.rectLeft := 0; PdfBbox.rectTop := 0 |}.

(** A drag on the overlay of the page, shown unrotated at scale 2. *)
Definition overlayDrag (field : option string) (xa ya xb yb : Q)
  : option (PdfBbox.World * PdfBbox.Overlay * option PdfBbox.Selection) :=
  vp ← viewportOf a4 2 0;
  Some (PdfBbox.gesture config (Some (viewer vp)) "m1"
          (worldOf field [] []) idle (pointer xa ya) (pointer xb yb)).

(** The same page on the stand-alone selection page. *)
Definition pageView : SelectionPage.PageView :=
  {| SelectionPage.pageSize := a4;
     SelectionPage.viewportWidth := 1190;
     SelectionPage.viewportHeight := 1684;
     SelectionPage.canvas := Some (SelectionPage.mkCanvas 0 0 1190 1684) |}.

Definition ready (field : option string) : SelectionPage.State :=
  {| SelectionPage.currentPage := 0;
     SelectionPage.selections := [];
     SelectionPage.currentPageView := Some pageView;
     SelectionPage.isDragging := false;
     SelectionPage.dragStart := None;
     SelectionPage.dragRect := None;
     SelectionPage.activeFieldId := field;
     SelectionPage.errors := [] |}.

Definition click (x y : Q) : SelectionPage.MouseEvent :=
  {| SelectionPage.clientX := x; SelectionPage.clientY := y;
     SelectionPage.onPage := true |}.

(** The stand-alone page after the button went down at (100,100). *)
Definition pressed (field : option string) : SelectionPage.State :=
  SelectionPage.mousedown (ready field) (click 100 100).

(** A page of the same size whose box lies below the origin, on the
    stand-alone selection page. *)
Definition belowOrigin : Box := mkBox 0 (-1000) 595 (-158).

Definition pageViewBelow : SelectionPage.PageView :=
  {| SelectionPage.pageSize := belowOrigin;
     SelectionPage.viewportWidth := 1190;
     SelectionPage.viewportHeight := 1684;
     SelectionPage.canvas := Some (SelectionPage.mkCanvas 0 0 1190 1684) |}.

Definition readyBelow (field : option string) : SelectionPage.State :=
  {| SelectionPage.currentPage := 0;
     SelectionPage.selections := [];
     SelectionPage.currentPageView := Some pageViewBelow;
     SelectionPage.isDragging := false;
     SelectionPage.dragStart := None;
     SelectionPage.dragRect := None;
     SelectionPage.activeFieldId := field;
     SelectionPage.errors := [] |}.



End Scenario.

(** * Properties *)

(** ** Arithmetic helpers *)
Section MinMax.

Lemma corners (u v : Q) :
  (Qmin u v == u /\ Qmax u v == v) \/ (Qmin u v == v /\ Qmax u v == u).
Proof.
  destruct (Q.min_spec u v) as [[H Hm]|[H Hm]],
           (Q.max_spec u v) as [[H' HM]|[H' HM]]; try lra; auto.
Qed.

Lemma swap_min (a1 a2 p q : Q) :
  p <= q -> unordered a1 a2 p q -> Qmin a1 a2 == p.
Proof.
  intros Hpq [[H1 H2]|[H1 H2]]; rewrite H1, H2.
  - apply Q.min_l; assumption.
  - apply Q.min_r; assumption.
Qed.

Lemma swap_abs (a1 a2 p q : Q) :
  p <= q -> unordered a1 a2 p q -> Qabs (a2 - a1) == q - p.
Proof.
  intros Hpq [[H1 H2]|[H1 H2]]; rewrite H1, H2.
  - apply Qabs_pos. lra.
  - rewrite Qabs_neg by lra. ring.
Qed.

(** An affine image of the smaller and the larger of two numbers is the
    affine image of the two numbers, in some order. *)
Lemma affine_corners (alpha beta u v p q a1 a2 : Q) :
  alpha * u + beta == p -> alpha * v + beta == q ->
  a1 == alpha * Qmin u v + beta -> a2 == alpha * Qmax u v + beta ->
  unordered a1 a2 p q.
Proof.
  intros Hu Hv H1 H2. unfold unordered. rewrite H1, H2.
  destruct (corners u v) as [[Hm HM]|[Hm HM]]; rewrite Hm, HM;
    [left|right]; auto.
Qed.

Lemma scaled_axis (k p q a1 a2 P Q' : Q) :
  p <= q -> P * k == p -> Q' * k == q -> unordered a1 a2 P Q' ->
  Qmin (a1 * k) (a2 * k) == p /\ Qabs (a2 * k - a1 * k) == q - p.
Proof.
  intros Hpq HP HQ Hun.
  assert (Hun' : unordered (a1 * k) (a2 * k) p q).
  { destruct Hun as [[H1 H2]|[H1 H2]]; [left|right];
      rewrite H1, H2; auto. }
  split; [eapply swap_min | eapply swap_abs]; eauto.
Qed.

Lemma within_tol_eq (tol a b : Q) : 0 <= tol -> a == b -> within_tol tol a b.
Proof.
  intros Ht Hab. unfold within_tol. rewrite Hab.
  assert (Hz : b - b == 0) by ring. rewrite Hz.
  simpl. apply Qmult_le_0_compat; [assumption | apply Qabs_nonneg].
Qed.

End MinMax.

(** ** The viewer's transforms *)
Section ViewerFacts.
Import Viewer.

Lemma forward_fst_diag (m : Matrix) (x y : Q) :
  m2 m == 0 -> fst (applyTransform (x, y) m) == m0 m * x + m4 m.
Proof. intros H. unfold applyTransform. simpl. rewrite H. ring. Qed.

Lemma forward_snd_diag (m : Matrix) (x y : Q) :
  m1 m == 0 -> snd (applyTransform (x, y) m) == m3 m * y + m5 m.
Proof. intros H. unfold applyTransform. simpl. rewrite H. ring. Qed.

Lemma forward_fst_anti (m : Matrix) (x y : Q) :
  m0 m == 0 -> fst (applyTransform (x, y) m) == m2 m * y + m4 m.
Proof. intros H. unfold applyTransform. simpl. rewrite H. ring. Qed.

Lemma forward_snd_anti (m : Matrix) (x y : Q) :
  m3 m == 0 -> snd (applyTransform (x, y) m) == m1 m * x + m5 m.
Proof. intros H. unfold applyTransform. simpl. rewrite H. ring. Qed.

Lemma inverse_fst_diag (m : Matrix) (X Y : Q) :
  m1 m == 0 -> m2 m == 0 -> ~ m0 m == 0 -> ~ m3 m == 0 ->
  m0 m * fst (applyInverseTransform (X, Y) m) + m4 m == X.
Proof.
  intros Hb Hc Ha Hd. unfold applyInverseTransform. simpl.
  rewrite Hb, Hc. field. tauto.
Qed.

Lemma inverse_snd_diag (m : Matrix) (X Y : Q) :
  m1 m == 0 -> m2 m == 0 -> ~ m0 m == 0 -> ~ m3 m == 0 ->
  m3 m * snd (applyInverseTransform (X, Y) m) + m5 m == Y.
Proof.
  intros Hb Hc Ha Hd. unfold applyInverseTransform. simpl.
  rewrite Hb, Hc. field. tauto.
Qed.

Lemma inverse_fst_anti (m : Matrix) (X Y : Q) :
  m0 m == 0 -> m3 m == 0 -> ~ m1 m == 0 -> ~ m2 m == 0 ->
  m1 m * fst (applyInverseTransform (X, Y) m) + m5 m == Y.
Proof.
  intros Ha Hd Hb Hc. unfold applyInverseTransform. simpl.
  rewrite Ha, Hd. field. tauto.
Qed.

Lemma inverse_snd_anti (m : Matrix) (X Y : Q) :
  m0 m == 0 -> m3 m == 0 -> ~ m1 m == 0 -> ~ m2 m == 0 ->
  m2 m * snd (applyInverseTransform (X, Y) m) + m4 m == X.
Proof.
  intros Ha Hd Hb Hc. unfold applyInverseTransform. simpl.
  rewrite Ha, Hd. field. tauto.
Qed.

End ViewerFacts.

(** ** Round trip through the stored rectangle *)
Section RoundTrip.
Import Viewer PdfBbox.

Variables (vp : PageViewport) (pageRect : Box) (canvasWidth : Q).
Hypothesis Hup : upright (transform vp).
Hypothesis Hvw : ~ width vp == 0.
Hypothesis Hcw : ~ canvasWidth == 0.

Lemma scale_back (t : Q) :
  t * (width vp / canvasWidth) * (canvasWidth / width vp) == t.
Proof. field. tauto. Qed.

Lemma rendered_normalized (r : ScreenRect) :
  0 <= r_width r -> 0 <= r_height r ->
  screen_eq (rendered vp pageRect canvasWidth
               (normalized vp pageRect canvasWidth r)) r.
Proof.
  intros Hw Hh.
  set (H := b3 pageRect - b1 pageRect).
  set (k := width vp / canvasWidth).
  set (p1 := convertToPdfPoint vp (r_left r * k) (r_top r * k)).
  set (p2 := convertToPdfPoint vp ((r_left r + r_width r) * k)
                                 ((r_top r + r_height r) * k)).
  assert (Hx : r_left r <= r_left r + r_width r) by lra.
  assert (Hy : r_top r <= r_top r + r_height r) by lra.
  assert (Ew : r_left r + r_width r - r_left r == r_width r) by ring.
  assert (Eh : r_top r + r_height r - r_top r == r_height r) by ring.
  unfold screen_eq, rendered, normalized; cbn [r_left r_top r_width r_height x1 y1 x2 y2].
  fold H k p1 p2.
  unfold convertToViewportPoint.
  destruct Hup as [(Hb & Hc & Ha & Hd)|(Ha & Hd & Hb & Hc)].
  - (* no quarter turn: x depends on x, y on y *)
    rewrite !forward_fst_diag, !forward_snd_diag by assumption.
    assert (Ux : unordered
              (m0 (transform vp) * Qmin (fst p1) (fst p2) + m4 (transform vp))
              (m0 (transform vp) * Qmax (fst p1) (fst p2) + m4 (transform vp))
              (r_left r * k) ((r_left r + r_width r) * k)).
    { eapply affine_corners; try reflexivity;
        apply inverse_fst_diag; assumption. }
    assert (Uy : unordered
              (m3 (transform vp) * (H - Qmin (H - snd p1) (H - snd p2))
               + m5 (transform vp))
              (m3 (transform vp) * (H - Qmax (H - snd p1) (H - snd p2))
               + m5 (transform vp))
              (r_top r * k) ((r_top r + r_height r) * k)).
    { eapply (affine_corners (- m3 (transform vp))
                (m3 (transform vp) * H + m5 (transform vp))
                (H - snd p1) (H - snd p2)); try ring.
      - rewrite <- (inverse_snd_diag (transform vp) (r_left r * k) (r_top r * k))
          by assumption. fold p1. unfold p1, convertToPdfPoint. ring.
      - rewrite <- (inverse_snd_diag (transform vp)
                      ((r_left r + r_width r) * k) ((r_top r + r_height r) * k))
          by assumption. unfold p2, convertToPdfPoint. ring. }
    destruct (scaled_axis (canvasWidth / width vp) _ _ _ _ _ _ Hx
                (scale_back _) (scale_back _) Ux) as [E1 E2].
    destruct (scaled_axis (canvasWidth / width vp) _ _ _ _ _ _ Hy
                (scale_back _) (scale_back _) Uy) as [E3 E4].
    rewrite E1, E2, E3, E4, Ew, Eh. repeat split; reflexivity.
  - (* a quarter turn: x on the screen follows y on the page *)
    rewrite !forward_fst_anti, !forward_snd_anti by assumption.
    assert (Ux : unordered
              (m2 (transform vp) * (H - Qmin (H - snd p1) (H - snd p2))
               + m4 (transform vp))
              (m2 (transform vp) * (H - Qmax (H - snd p1) (H - snd p2))
               + m4 (transform vp))
              (r_left r * k) ((r_left r + r_width r) * k)).
    { eapply (affine_corners (- m2 (transform vp))
                (m2 (transform vp) * H + m4 (transform vp))
                (H - snd p1) (H - snd p2)); try ring.
      - rewrite <- (inverse_snd_anti (transform vp) (r_left r * k) (r_top r * k))
          by assumption. unfold p1, convertToPdfPoint. ring.
      - rewrite <- (inverse_snd_anti (transform vp)
                      ((r_left r + r_width r) * k) ((r_top r + r_height r) * k))
          by assumption. unfold p2, convertToPdfPoint. ring. }
    assert (Uy : unordered
              (m1 (transform vp) * Qmin (fst p1) (fst p2) + m5 (transform vp))
              (m1 (transform vp) * Qmax (fst p1) (fst p2) + m5 (transform vp))
              (r_top r * k) ((r_top r + r_height r) * k)).
    { eapply affine_corners; try reflexivity;
        apply inverse_fst_anti; assumption. }
    destruct (scaled_axis (canvasWidth / width vp) _ _ _ _ _ _ Hx
                (scale_back _) (scale_back _) Ux) as [E1 E2].
    destruct (scaled_axis (canvasWidth / width vp) _ _ _ _ _ _ Hy
                (scale_back _) (scale_back _) Uy) as [E3 E4].
    rewrite E1, E2, E3, E4, Ew, Eh. repeat split; reflexivity.
Qed.

End RoundTrip.

(** ** The four supported rotations *)
Section Rotations.
Import Viewer.

Lemma viewportOf_upright (viewBox : Box) (scale : Q) (rotation : Z) :
  In rotation [0; 90; 180; 270]%Z -> ~ scale == 0 ->
  exists vp, viewportOf viewBox scale rotation = Some vp /\
             upright (transform vp) /\
             (width vp == (b2 viewBox - b0 viewBox) * scale \/
              width vp == (b3 viewBox - b1 viewBox) * scale).
Proof.
  intros Hrot Hs.
  assert (Hone : ~ 1 * scale == 0) by (intros E; apply Hs; rewrite <- E; ring).
  assert (Hneg : ~ -1 * scale == 0)
    by (intros E; apply Hs;
        assert (E' : scale == - (-1 * scale)) by ring;
        rewrite E', E; reflexivity).
  assert (Hz : 0 * scale == 0) by ring.
  simpl in Hrot.
  destruct Hrot as [<-|[<-|[<-|[<-|[]]]]];
    (eexists; split; [reflexivity|]); cbn; unfold upright; cbn;
    (split; [|first [left; reflexivity | right; reflexivity]]).
  - left. auto.
  - right. auto.
  - left. auto.
  - right. auto.
Qed.

End Rotations.

(** ** Geometry of the stored rectangle *)
Section Geometry.
Import Viewer PdfBbox.

(** C1. For every rectangle drawn on the rendering surface and every page
    shown at a rotation of 0, 90, 180 or 270 degrees, storing the rectangle
    (the [mouseup] steps) and drawing the stored mark again on a surface of
    the same size (the [renderBboxes] steps) gives back the drawn rectangle:
    exactly in rational arithmetic, hence within a relative tolerance of
    1e-6 on every component. *)
Theorem roundtrip_screen_rectangle
  (rotation : Z) (viewBox : Box) (scale canvasWidth : Q)
  (startX startY endX endY : Q) :
  In rotation [0; 90; 180; 270]%Z ->
  b0 viewBox < b2 viewBox -> b1 viewBox < b3 viewBox ->
  0 < scale -> 0 < canvasWidth ->
  exists vp, viewportOf viewBox scale rotation = Some vp /\
    let R := spanRect startX startY endX endY in
    let back := rendered vp viewBox canvasWidth
                  (normalized vp viewBox canvasWidth R) in
    screen_eq back R /\ screen_close tol6 back R.
Proof.
  intros Hrot Hx Hy Hs Hc.
  destruct (viewportOf_upright viewBox scale rotation Hrot) as (vp & Hvp & Hup & Hw).
  { lra. }
  exists vp. split; [assumption|].
  assert (Hnz : ~ width vp == 0).
  { intros E. destruct Hw as [Hw|Hw]; rewrite Hw in E;
      apply Qmult_integral in E; lra. }
  assert (Heq : screen_eq
            (rendered vp viewBox canvasWidth
               (normalized vp viewBox canvasWidth
                  (spanRect startX startY endX endY)))
            (spanRect startX startY endX endY)).
  { apply rendered_normalized; try assumption; try lra;
      unfold spanRect; cbn [r_width r_height]; apply Qabs_nonneg. }
  cbv zeta. split; [exact Heq|].
  destruct Heq as (E1 & E2 & E3 & E4).
  repeat split; apply within_tol_eq; try assumption; discriminate.
Qed.

Lemma roundtrip_screen_rectangle_witness :
  exists vp, viewportOf (mkBox 0 0 595 842) 2 90 = Some vp /\
    let R := spanRect 300 150 100 100 in
    let back := rendered vp (mkBox 0 0 595 842) 1684
                  (normalized vp (mkBox 0 0 595 842) 1684 R) in
    screen_eq back R /\ screen_close tol6 back R.
Proof.
  apply (roundtrip_screen_rectangle 90 (mkBox 0 0 595 842) 2 1684 300 150 100 100).
  - simpl. tauto.
  - reflexivity.
  - reflexivity.
  - reflexivity.
  - reflexivity.
Defined.

(** C2 (amended).  A page of 595 x 842 points, shown unrotated on a surface
    of 1190 x 1684 pixels, with a drag from (100,100) to (300,150).  Both
    scripts store a rectangle 100 pt wide and 25 pt high with x1 = 50 and
    x2 = 150.  The stand-alone selection page stores y1 = 767 and y2 = 792,
    measured from the bottom of the page.  The overlay controller receives
    the bottom-up values 792 and 767 from the viewer and stores the page
    height minus them: y1 = 50 and y2 = 75, measured from the top. *)
Theorem a4_drag_scenario :
  (exists s,
      SelectionPage.selections
        (SelectionPage.gesture (Scenario.ready (Some "title"))
           (Scenario.click 100 100) (Scenario.click 300 150)) = [s] /\
      pdfrect_eq (SelectionPage.rect_of s) (mkPdfRect 50 767 150 792) /\
      x2 (SelectionPage.rect_of s) - x1 (SelectionPage.rect_of s) == 100 /\
      y2 (SelectionPage.rect_of s) - y1 (SelectionPage.rect_of s) == 25) /\
  (exists w ov s,
      Scenario.overlayDrag (Some "title") 100 100 300 150 = Some (w, ov, Some s) /\
      selections (state w) = [s] /\
      pdfrect_eq (rect_of s) (mkPdfRect 50 50 150 75) /\
      x2 (rect_of s) - x1 (rect_of s) == 100 /\
      y2 (rect_of s) - y1 (rect_of s) == 25).
Proof.
  split.
  - eexists. split; [reflexivity|]. vm_compute. tauto.
  - do 3 eexists. split; [reflexivity|]. split; [reflexivity|].
    vm_compute. tauto.
Qed.

(** C2, as stated, fails on the overlay controller: the mark it stores for
    this drag does not have y1 = 767 and y2 = 792. *)
Lemma a4_drag_overlay_not_bottom_up :
  ~ (exists w ov s,
        Scenario.overlayDrag (Some "title") 100 100 300 150 = Some (w, ov, Some s) /\
        y1 (rect_of s) == 767 /\ y2 (rect_of s) == 792).
Proof.
  intros (w & ov & s & Hrun & Hy1 & _).
  vm_compute in Hrun. injection Hrun as _ _ <-.
  vm_compute in Hy1. discriminate Hy1.
Qed.

End Geometry.

(** ** The overlay controller's handlers *)
Section OverlayFacts.
Import Viewer PdfBbox.

Lemma Qltb_lt (a b : Q) : Qltb a b = true <-> a < b.
Proof.
  unfold Qltb. rewrite negb_true_iff.
  split.
  - intros H. apply Qnot_le_lt. intros Hle.
    apply Qle_bool_iff in Hle. congruence.
  - intros H. destruct (Qle_bool b a) eqn:E; [|reflexivity].
    apply Qle_bool_iff in E. lra.
Qed.

Lemma Qltb_ge (a b : Q) : Qltb a b = false <-> b <= a.
Proof.
  unfold Qltb. rewrite negb_false_iff. apply Qle_bool_iff.
Qed.

Lemma Qltb_proper (a a' b : Q) : a == a' -> Qltb a b = Qltb a' b.
Proof.
  intros E. destruct (Qltb a b) eqn:H1, (Qltb a' b) eqn:H2; try reflexivity.
  - apply Qltb_lt in H1. apply Qltb_ge in H2. lra.
  - apply Qltb_lt in H2. apply Qltb_ge in H1. lra.
Qed.

Lemma renderBboxes_selections (app : option App) (w : World) :
  selections (state (renderBboxes app w)) = selections (state w).
Proof.
  unfold renderBboxes. destruct app as [a|]; [|reflexivity].
  destruct (getPageView a (app_page a - 1)) as [pv|]; [|reflexivity].
  destruct (canvas pv); [|reflexivity].
  destruct (pdfPage pv); reflexivity.
Qed.

Lemma renderBboxes_form (app : option App) (w : World) :
  form (renderBboxes app w) = form w.
Proof.
  unfold renderBboxes. destruct app as [a|]; [|reflexivity].
  destruct (getPageView a (app_page a - 1)) as [pv|]; [|reflexivity].
  destruct (canvas pv); [|reflexivity].
  destruct (pdfPage pv); reflexivity.
Qed.

(** The two ways a [mouseup] can end: nothing is stored and nothing is
    sent, or one mark is appended, the page is redrawn and the extraction
    request for that mark is sent. *)
Lemma mouseup_cases (config : Config) (app : option App) (newId : string)
    (w : World) (ov : Overlay) (e : MouseEvent) :
  (exists ov', mouseup config app newId w ov e = (w, ov', None)) \/
  (exists d pv pageRect c,
      drag ov = Some d /\
      app ≫= (fun a => getPageView a (pageIndex ov)) = Some pv /\
      pdfPage pv = Some pageRect /\ canvas pv = Some c /\
      let p := getOverlayPoint e in
      let r := spanRect (startX d) (startY d) (fst p) (snd p) in
      let s := dragSelection newId (activeFieldId (state w)) (pageIndex ov)
                 pv pageRect c r in
      4 <= r_width r /\ 4 <= r_height r /\
      mouseup config app newId w ov e =
        (emit (extractRequest config s)
           (renderBboxes app (withSelections (selections (state w) ++ [s]) w)),
         {| pageIndex := pageIndex ov; drag := None |}, Some s)).
Proof.
  unfold mouseup.
  destruct (drag ov) as [d|] eqn:Hd; [|left; eauto].
  destruct (Qltb (r_width _) 4) eqn:Hw; [left; eauto|].
  destruct (Qltb (r_height _) 4) eqn:Hh; [left; eauto|].
  cbn [orb].
  destruct (app ≫= _) as [pv|] eqn:Hpv; [|left; eauto].
  destruct (pdfPage pv) as [pageRect|] eqn:Hp; [|left; eauto].
  destruct (canvas pv) as [c|] eqn:Hc; [|left; eauto].
  right. exists d, pv, pageRect, c.
  apply Qltb_ge in Hw, Hh. repeat split; auto.
Qed.

Lemma normalized_canonical (vp : PageViewport) (pageRect : Box) (cw : Q)
    (r : ScreenRect) : canonical (normalized vp pageRect cw r).
Proof.
  unfold canonical, normalized; cbn [x1 y1 x2 y2].
  split; (eapply Qle_trans; [apply Q.le_min_l | apply Q.le_max_l]).
Qed.

Lemma normalized_proper (vp : PageViewport) (pageRect : Box) (cw : Q)
    (r r' : ScreenRect) :
  screen_eq r r' ->
  pdfrect_eq (normalized vp pageRect cw r) (normalized vp pageRect cw r').
Proof.
  intros (E1 & E2 & E3 & E4).
  unfold pdfrect_eq, normalized, convertToPdfPoint, applyInverseTransform;
    cbn [x1 y1 x2 y2 fst snd].
  rewrite E1, E2, E3, E4. repeat split; reflexivity.
Qed.

Lemma spanRect_swap (ax ay bx by' : Q) :
  screen_eq (spanRect ax ay bx by') (spanRect bx by' ax ay).
Proof.
  unfold screen_eq, spanRect; cbn [r_left r_top r_width r_height].
  repeat split.
  - apply Q.min_comm.
  - apply Q.min_comm.
  - rewrite (Qabs_Qminus bx ax). reflexivity.
  - rewrite (Qabs_Qminus by' ay). reflexivity.
Qed.

End OverlayFacts.

(** ** Canonical marks *)
Section Canonical.
Import Viewer.

Lemma pdfrect_eq_refl (r : PdfRect) : pdfrect_eq r r.
Proof. repeat split; reflexivity. Qed.

Lemma Forall2_same {A : Type} (R : A -> A -> Prop) (l : list A) :
  (forall a, R a a) -> Forall2 R l l.
Proof. intros HR. induction l; constructor; auto. Qed.

Lemma overlay_mouseup_canonical (config : PdfBbox.Config)
    (app : option PdfBbox.App) (newId : string) (w : PdfBbox.World)
    (ov : PdfBbox.Overlay) (e : PdfBbox.MouseEvent) :
  Forall canonicalMark (PdfBbox.selections (PdfBbox.state w)) ->
  Forall canonicalMark
    (PdfBbox.selections
       (PdfBbox.state (fst (fst (PdfBbox.mouseup config app newId w ov e))))).
Proof.
  intros Hall.
  destruct (mouseup_cases config app newId w ov e)
    as [(ov' & ->)|(d & pv & pageRect & c & _ & _ & _ & _ & H)].
  - exact Hall.
  - cbv zeta in H. destruct H as (_ & _ & ->). cbn [fst].
    unfold PdfBbox.emit; cbn [PdfBbox.state].
    rewrite renderBboxes_selections. cbn.
    apply Forall_app. split; [exact Hall|].
    constructor; [|constructor].
    apply normalized_canonical.
Qed.

Lemma overlay_mousedown_selections (w : PdfBbox.World) (ov : PdfBbox.Overlay)
    (e : PdfBbox.MouseEvent) :
  PdfBbox.selections (PdfBbox.state (fst (PdfBbox.mousedown w ov e)))
  = PdfBbox.selections (PdfBbox.state w).
Proof.
  unfold PdfBbox.mousedown.
  destruct (negb (PdfBbox.button e =? 0)%Z); [reflexivity|].
  destruct (negb (truthy _)); reflexivity.
Qed.

Lemma overlay_gesture_reversed (config : PdfBbox.Config)
    (app : option PdfBbox.App) (newId : string) (w : PdfBbox.World)
    (ov : PdfBbox.Overlay) (eA eB : PdfBbox.MouseEvent) :
  PdfBbox.drag ov = None ->
  PdfBbox.button eA = 0%Z -> PdfBbox.button eB = 0%Z ->
  Forall2 sameRect
    (PdfBbox.selections
       (PdfBbox.state (fst (fst (PdfBbox.gesture config app newId w ov eA eB)))))
    (PdfBbox.selections
       (PdfBbox.state (fst (fst (PdfBbox.gesture config app newId w ov eB eA))))).
Proof.
  intros Hidle HA HB.
  unfold PdfBbox.gesture, PdfBbox.mousedown. rewrite HA, HB. cbn [Z.eqb negb].
  destruct (truthy (PdfBbox.activeFieldId (PdfBbox.state w))); cbn [negb fst snd].
  2:{ unfold PdfBbox.mouseup. rewrite Hidle. cbn [fst].
      apply Forall2_same. intros a. apply pdfrect_eq_refl. }
  unfold PdfBbox.mouseup; cbn [PdfBbox.drag PdfBbox.startX PdfBbox.startY
                                PdfBbox.pageIndex].
  set (pA := PdfBbox.getOverlayPoint eA).
  set (pB := PdfBbox.getOverlayPoint eB).
  pose proof (spanRect_swap (fst pA) (snd pA) (fst pB) (snd pB))
    as Hswap.
  destruct Hswap as (E1 & E2 & E3 & E4).
  rewrite (Qltb_proper _ _ 4 E3), (Qltb_proper _ _ 4 E4).
  destruct (Qltb _ 4 || Qltb _ 4).
  { cbn [fst]. apply Forall2_same. intros a. apply pdfrect_eq_refl. }
  destruct (app ≫= _) as [pv|].
  2:{ cbn [fst]. apply Forall2_same. intros a. apply pdfrect_eq_refl. }
  destruct (PdfBbox.pdfPage pv) as [pageRect|], (PdfBbox.canvas pv) as [c|];
    try (cbn [fst]; apply Forall2_same; intros a; apply pdfrect_eq_refl).
  cbn [fst]. unfold PdfBbox.emit; cbn [PdfBbox.state].
  rewrite !renderBboxes_selections. cbn [PdfBbox.withSelections
    PdfBbox.state PdfBbox.selections].
  apply Forall2_app.
  - apply Forall2_same. intros a. apply pdfrect_eq_refl.
  - constructor; [|constructor].
    unfold sameRect, PdfBbox.dragSelection, PdfBbox.rect_of;
      cbn [PdfBbox.pdf_x1 PdfBbox.pdf_y1 PdfBbox.pdf_x2 PdfBbox.pdf_y2].
    pose proof (normalized_proper (PdfBbox.viewport pv) pageRect
                  (PdfBbox.offsetWidth c) _ _
                  (spanRect_swap (fst pA) (snd pA) (fst pB) (snd pB))) as Hn.
    exact Hn.
Qed.

Lemma page_dragSelection_canonical (st : SelectionPage.State)
    (pv : SelectionPage.PageView) (sx1 sy1 sx2 sy2 : Q) :
  0 < SelectionPage.viewportHeight pv -> 0 <= b3 (SelectionPage.pageSize pv) ->
  sy1 <= sy2 ->
  canonicalMark' (SelectionPage.dragSelection st pv sx1 sy1 sx2 sy2).
Proof.
  intros Hvh Hb3 Hy.
  unfold canonicalMark', canonical, SelectionPage.rect_of,
    SelectionPage.dragSelection; cbn.
  split.
  - eapply Qle_trans; [apply Q.le_min_l | apply Q.le_max_l].
  - assert (Hinv : 0 < / SelectionPage.viewportHeight pv)
      by (apply Qinv_lt_0_compat; assumption).
    assert (Hd : sy1 / SelectionPage.viewportHeight pv
                 <= sy2 / SelectionPage.viewportHeight pv).
    { unfold Qdiv. apply Qmult_le_compat_r; lra. }
    assert (Hm : sy1 / SelectionPage.viewportHeight pv * b3 (SelectionPage.pageSize pv)
                 <= sy2 / SelectionPage.viewportHeight pv * b3 (SelectionPage.pageSize pv)).
    { apply Qmult_le_compat_r; assumption. }
    lra.
Qed.

Lemma page_dragSelection_proper (st st' : SelectionPage.State)
    (pv : SelectionPage.PageView) (a1 b1' a2 b2' c1 d1 c2 d2 : Q) :
  a1 == c1 -> b1' == d1 -> a2 == c2 -> b2' == d2 ->
  sameRect' (SelectionPage.dragSelection st pv a1 b1' a2 b2')
            (SelectionPage.dragSelection st' pv c1 d1 c2 d2).
Proof.
  intros E1 E2 E3 E4.
  unfold sameRect', pdfrect_eq, SelectionPage.rect_of,
    SelectionPage.dragSelection; cbn.
  rewrite E1, E2, E3, E4. repeat split; reflexivity.
Qed.

Lemma page_mousedown_keeps (st : SelectionPage.State)
    (e : SelectionPage.MouseEvent) :
  SelectionPage.selections (SelectionPage.mousedown st e)
    = SelectionPage.selections st /\
  SelectionPage.currentPageView (SelectionPage.mousedown st e)
    = SelectionPage.currentPageView st.
Proof.
  unfold SelectionPage.mousedown.
  destruct (SelectionPage.currentPageView st) as [pv|] eqn:E; [|auto].
  destruct (SelectionPage.canvas pv); [|auto].
  destruct (negb (SelectionPage.onPage e)); auto.
Qed.

Lemma page_mouseup_canonical (st : SelectionPage.State)
    (e : SelectionPage.MouseEvent) :
  (forall pv, SelectionPage.currentPageView st = Some pv ->
              0 < SelectionPage.viewportHeight pv /\
              0 <= b3 (SelectionPage.pageSize pv)) ->
  Forall canonicalMark' (SelectionPage.selections st) ->
  Forall canonicalMark' (SelectionPage.selections (SelectionPage.mouseup st e)).
Proof.
  intros Hpv Hall. unfold SelectionPage.mouseup.
  destruct (negb (SelectionPage.isDragging st)); [exact Hall|].
  destruct (SelectionPage.dragStart st) as [start|]; [|exact Hall].
  destruct (SelectionPage.currentPageView st) as [pv|]; [|exact Hall].
  destruct (SelectionPage.canvas pv) as [c|]; [|exact Hall].
  destruct (Qltb _ 8 || Qltb _ 8); [exact Hall|].
  destruct (negb (truthy _)); [exact Hall|].
  cbn. apply Forall_app. split; [exact Hall|].
  constructor; [|constructor].
  destruct (Hpv pv eq_refl) as [Hvh Hb3].
  apply page_dragSelection_canonical; try assumption.
  eapply Qle_trans; [apply Q.le_min_l | apply Q.le_max_l].
Qed.

Lemma page_gesture_reversed (st : SelectionPage.State)
    (fA fB : SelectionPage.MouseEvent) :
  SelectionPage.isDragging st = false ->
  SelectionPage.onPage fA = true -> SelectionPage.onPage fB = true ->
  Forall2 sameRect'
    (SelectionPage.selections (SelectionPage.gesture st fA fB))
    (SelectionPage.selections (SelectionPage.gesture st fB fA)).
Proof.
  intros Hidle HA HB.
  assert (Hrefl : forall l, Forall2 sameRect' l l)
    by (intros l; apply Forall2_same; intros a; apply pdfrect_eq_refl).
  unfold SelectionPage.gesture, SelectionPage.mousedown.
  destruct (SelectionPage.currentPageView st) as [pv|] eqn:Epv.
  2:{ unfold SelectionPage.mouseup. rewrite Hidle. apply Hrefl. }
  destruct (SelectionPage.canvas pv) as [c|] eqn:Ec.
  2:{ unfold SelectionPage.mouseup. rewrite Hidle. apply Hrefl. }
  rewrite HA, HB. cbn [negb].
  unfold SelectionPage.mouseup;
    cbn [SelectionPage.isDragging SelectionPage.dragStart
         SelectionPage.currentPageView SelectionPage.activeFieldId negb].
  try rewrite Ec.
  set (pA := SelectionPage.getCanvasCoords fA c).
  set (pB := SelectionPage.getCanvasCoords fB c).
  assert (Ex : Qabs (Qmax (fst pA) (fst pB) - Qmin (fst pA) (fst pB))
               == Qabs (Qmax (fst pB) (fst pA) - Qmin (fst pB) (fst pA)))
    by (rewrite (Q.max_comm (fst pA)), (Q.min_comm (fst pA)); reflexivity).
  assert (Ey : Qabs (Qmax (snd pA) (snd pB) - Qmin (snd pA) (snd pB))
               == Qabs (Qmax (snd pB) (snd pA) - Qmin (snd pB) (snd pA)))
    by (rewrite (Q.max_comm (snd pA)), (Q.min_comm (snd pA)); reflexivity).
  rewrite (Qltb_proper _ _ 8 Ex), (Qltb_proper _ _ 8 Ey).
  destruct (Qltb _ 8 || Qltb _ 8); [apply Hrefl|].
  destruct (negb (truthy _)); [apply Hrefl|].
  cbn [SelectionPage.released SelectionPage.selections].
  apply Forall2_app; [apply Hrefl|].
  constructor; [|constructor].
  apply page_dragSelection_proper;
    [apply Q.min_comm | apply Q.min_comm | apply Q.max_comm | apply Q.max_comm].
Qed.

(** Where the order is kept.  If the marks held so far have x1 <= x2 and
    y1 <= y2, so have the marks held after a completed drag, and the drag
    between the same two points in the opposite direction stores the same
    rectangles.  This holds for the overlay controller, which orders both
    axes with [Math.min] and [Math.max], and, on a page whose box does not
    end below the origin, for the stand-alone selection page, which orders
    only x that way. *)
Theorem stored_marks_canonical
  (config : PdfBbox.Config) (app : option PdfBbox.App) (newId : string)
  (w : PdfBbox.World) (ov : PdfBbox.Overlay) (eA eB : PdfBbox.MouseEvent)
  (st : SelectionPage.State) (fA fB : SelectionPage.MouseEvent) :
  PdfBbox.drag ov = None ->
  PdfBbox.button eA = 0%Z -> PdfBbox.button eB = 0%Z ->
  Forall canonicalMark (PdfBbox.selections (PdfBbox.state w)) ->
  SelectionPage.isDragging st = false ->
  SelectionPage.onPage fA = true -> SelectionPage.onPage fB = true ->
  (forall pv, SelectionPage.currentPageView st = Some pv ->
              0 < SelectionPage.viewportHeight pv /\
              0 <= b3 (SelectionPage.pageSize pv)) ->
  Forall canonicalMark' (SelectionPage.selections st) ->
  let forth := fst (fst (PdfBbox.gesture config app newId w ov eA eB)) in
  let back := fst (fst (PdfBbox.gesture config app newId w ov eB eA)) in
  Forall canonicalMark (PdfBbox.selections (PdfBbox.state forth)) /\
  Forall2 sameRect (PdfBbox.selections (PdfBbox.state forth))
                   (PdfBbox.selections (PdfBbox.state back)) /\
  Forall canonicalMark'
    (SelectionPage.selections (SelectionPage.gesture st fA fB)) /\
  Forall2 sameRect'
    (SelectionPage.selections (SelectionPage.gesture st fA fB))
    (SelectionPage.selections (SelectionPage.gesture st fB fA)).
Proof.
  intros Hidle HA HB Hall Hidle' HA' HB' Hpv Hall'. cbv zeta.
  split; [|split; [|split]].
  - unfold PdfBbox.gesture. apply overlay_mouseup_canonical.
    rewrite overlay_mousedown_selections. exact Hall.
  - apply overlay_gesture_reversed; assumption.
  - unfold SelectionPage.gesture.
    destruct (page_mousedown_keeps st fA) as [Es Ev].
    apply page_mouseup_canonical.
    + rewrite Ev. exact Hpv.
    + rewrite Es. exact Hall'.
  - apply page_gesture_reversed; assumption.
Qed.

Lemma stored_marks_canonical_witness :
  let app := Some (Scenario.viewer Scenario.a4Viewport) in
  let w := Scenario.worldOf (Some "title") [] [] in
  let st := Scenario.ready (Some "title") in
  let forth := fst (fst (PdfBbox.gesture Scenario.config app "m1" w Scenario.idle
                           (Scenario.pointer 100 100) (Scenario.pointer 300 150))) in
  let back := fst (fst (PdfBbox.gesture Scenario.config app "m1" w Scenario.idle
                          (Scenario.pointer 300 150) (Scenario.pointer 100 100))) in
  Forall canonicalMark (PdfBbox.selections (PdfBbox.state forth)) /\
  Forall2 sameRect (PdfBbox.selections (PdfBbox.state forth))
                   (PdfBbox.selections (PdfBbox.state back)) /\
  Forall canonicalMark'
    (SelectionPage.selections
       (SelectionPage.gesture st (Scenario.click 100 100) (Scenario.click 300 150))) /\
  Forall2 sameRect'
    (SelectionPage.selections
       (SelectionPage.gesture st (Scenario.click 100 100) (Scenario.click 300 150)))
    (SelectionPage.selections
       (SelectionPage.gesture st (Scenario.click 300 150) (Scenario.click 100 100))).
Proof.
  apply (stored_marks_canonical Scenario.config
           (Some (Scenario.viewer Scenario.a4Viewport)) "m1"
           (Scenario.worldOf (Some "title") [] []) Scenario.idle
           (Scenario.pointer 100 100) (Scenario.pointer 300 150)
           (Scenario.ready (Some "title"))
           (Scenario.click 100 100) (Scenario.click 300 150)).
  - reflexivity.
  - reflexivity.
  - reflexivity.
  - constructor.
  - reflexivity.
  - reflexivity.
  - reflexivity.
  - intros pv Hpv. injection Hpv as <-. split; [reflexivity | discriminate].
  - constructor.
Defined.

(** C3.  The stand-alone selection page does not keep the order of y on a
    page whose box ends below the origin.  The handler orders x with
    [Math.min] and [Math.max] but stores the two y values as computed, and
    with [pageSize[3]] negative they come out reversed: on the page box
    [[0, -1000, 595, -158]] the drag from (100,100) to (300,150) stores one
    mark with x1 <= x2 and y2 < y1, which is not canonical. *)
Lemma page_mark_unordered_below_origin :
  exists s : SelectionPage.Selection,
    SelectionPage.selections
      (SelectionPage.gesture (Scenario.readyBelow (Some "title"))
         (Scenario.click 100 100) (Scenario.click 300 150)) = [s] /\
    SelectionPage.pdf_x1 s <= SelectionPage.pdf_x2 s /\
    SelectionPage.pdf_y2 s < SelectionPage.pdf_y1 s /\
    ~ canonicalMark' s.
Proof.
  eexists. split; [reflexivity|].
  split; [discriminate|]. split; [reflexivity|].
  intros [_ Hy]. apply Hy. reflexivity.
Qed.

End Canonical.

(** ** The pointer state machine *)
Section Gestures.
Import Viewer.

(** C4 (amended).  In the overlay controller the threshold is 4 pixels: a
    released drag narrower or lower than 4 pixels (3 pixels, say) stores
    nothing and sends nothing, and one of at least 4 by 4 pixels on a
    loaded page appends exactly one mark.  On the stand-alone selection
    page the threshold is 8 pixels. *)
Theorem minimum_drag_size
  (config : PdfBbox.Config) (app : option PdfBbox.App) (newId : string)
  (w : PdfBbox.World) (ov : PdfBbox.Overlay) (e : PdfBbox.MouseEvent)
  (d : PdfBbox.Drag) (pv : PdfBbox.PageView) (pageRect : Box)
  (c : PdfBbox.Canvas)
  (st : SelectionPage.State) (e' : SelectionPage.MouseEvent) (start : point)
  (pv' : SelectionPage.PageView) (c' : SelectionPage.Canvas) :
  PdfBbox.drag ov = Some d ->
  app ≫= (fun a => PdfBbox.getPageView a (PdfBbox.pageIndex ov)) = Some pv ->
  PdfBbox.pdfPage pv = Some pageRect -> PdfBbox.canvas pv = Some c ->
  SelectionPage.isDragging st = true ->
  SelectionPage.dragStart st = Some start ->
  SelectionPage.currentPageView st = Some pv' ->
  SelectionPage.canvas pv' = Some c' ->
  truthy (SelectionPage.activeFieldId st) = true ->
  let p := PdfBbox.getOverlayPoint e in
  let r := spanRect (PdfBbox.startX d) (PdfBbox.startY d) (fst p) (snd p) in
  let out := PdfBbox.mouseup config app newId w ov e in
  let q := SelectionPage.getCanvasCoords e' c' in
  let dx := Qabs (Qmax (fst start) (fst q) - Qmin (fst start) (fst q)) in
  let dy := Qabs (Qmax (snd start) (snd q) - Qmin (snd start) (snd q)) in
  let after := SelectionPage.mouseup st e' in
  (r_width r < 4 \/ r_height r < 4 ->
   fst (fst out) = w /\ snd out = None) /\
  (4 <= r_width r /\ 4 <= r_height r ->
   exists s, snd out = Some s /\
     PdfBbox.selections (PdfBbox.state (fst (fst out)))
     = PdfBbox.selections (PdfBbox.state w) ++ [s]) /\
  (dx < 8 \/ dy < 8 ->
   SelectionPage.selections after = SelectionPage.selections st) /\
  (8 <= dx /\ 8 <= dy ->
   exists s, SelectionPage.selections after
             = SelectionPage.selections st ++ [s]).
Proof.
  intros Hd Hpv Hpage Hc Hdrag Hstart Hpv' Hc' Hfield. cbv zeta.
  split; [|split; [|split]].
  - intros Hsmall. unfold PdfBbox.mouseup. rewrite Hd.
    assert (Hb : Qltb (r_width (spanRect (PdfBbox.startX d) (PdfBbox.startY d)
                                  (fst (PdfBbox.getOverlayPoint e))
                                  (snd (PdfBbox.getOverlayPoint e)))) 4
                 || Qltb (r_height (spanRect (PdfBbox.startX d) (PdfBbox.startY d)
                                      (fst (PdfBbox.getOverlayPoint e))
                                      (snd (PdfBbox.getOverlayPoint e)))) 4 = true).
    { apply orb_true_iff. destruct Hsmall as [H|H]; [left|right];
        apply Qltb_lt; exact H. }
    rewrite Hb. split; reflexivity.
  - intros [Hw Hh]. unfold PdfBbox.mouseup. rewrite Hd.
    apply Qltb_ge in Hw, Hh. rewrite Hw, Hh. cbn [orb].
    rewrite Hpv, Hpage, Hc. eexists. split; [reflexivity|].
    cbn [fst]. unfold PdfBbox.emit; cbn [PdfBbox.state].
    rewrite renderBboxes_selections. reflexivity.
  - intros Hsmall. unfold SelectionPage.mouseup.
    rewrite Hdrag, Hstart, Hpv', Hc'. cbn [negb].
    assert (Hb : Qltb (Qabs (Qmax (fst start) (fst (SelectionPage.getCanvasCoords e' c'))
                             - Qmin (fst start) (fst (SelectionPage.getCanvasCoords e' c')))) 8
                 || Qltb (Qabs (Qmax (snd start) (snd (SelectionPage.getCanvasCoords e' c'))
                                - Qmin (snd start) (snd (SelectionPage.getCanvasCoords e' c')))) 8
                 = true).
    { apply orb_true_iff. destruct Hsmall as [H|H]; [left|right];
        apply Qltb_lt; exact H. }
    rewrite Hb. reflexivity.
  - intros [Hx Hy]. unfold SelectionPage.mouseup.
    rewrite Hdrag, Hstart, Hpv', Hc'. cbn [negb].
    apply Qltb_ge in Hx, Hy. rewrite Hx, Hy, Hfield. cbn [orb negb].
    eexists. reflexivity.
Qed.

Lemma minimum_drag_size_witness :
  (exists s,
      snd (PdfBbox.mouseup Scenario.config
             (Some (Scenario.viewer Scenario.a4Viewport)) "m1"
             (Scenario.worldOf (Some "title") [] []) Scenario.dragging
             (Scenario.pointer 104 104)) = Some s) /\
  SelectionPage.selections
    (SelectionPage.mouseup (Scenario.pressed (Some "title")) (Scenario.click 107 120))
  = [].
Proof.
  destruct (minimum_drag_size Scenario.config
              (Some (Scenario.viewer Scenario.a4Viewport)) "m1"
              (Scenario.worldOf (Some "title") [] []) Scenario.dragging
              (Scenario.pointer 104 104)
              (PdfBbox.mkDrag 100 100 (mkScreen 100 100 0 0))
              (Scenario.pageViewAt Scenario.a4Viewport) Scenario.a4
              (PdfBbox.mkCanvas 1190 1684)
              (Scenario.pressed (Some "title")) (Scenario.click 107 120)
              (Qmax 0 (Qmin 1190 (100 - 0)), Qmax 0 (Qmin 1684 (100 - 0)))
              Scenario.pageView (SelectionPage.mkCanvas 0 0 1190 1684)
              eq_refl eq_refl eq_refl eq_refl eq_refl eq_refl eq_refl eq_refl
              eq_refl)
    as (_ & Hbig & Hsmall & _).
  split.
  - destruct Hbig as (s & Hs & _).
    + split; discriminate.
    + exists s. exact Hs.
  - apply Hsmall. left. reflexivity.
Defined.

(** C4, as stated, fails on the stand-alone selection page: a drag of
    exactly 4 by 4 pixels with a field selected stores no mark. *)
Lemma page_drag_of_4_pixels_is_discarded :
  SelectionPage.selections
    (SelectionPage.gesture (Scenario.ready (Some "title"))
       (Scenario.click 100 100) (Scenario.click 104 104)) = [] /\
  SelectionPage.errors
    (SelectionPage.gesture (Scenario.ready (Some "title"))
       (Scenario.click 100 100) (Scenario.click 104 104)) = [].
Proof. split; reflexivity. Qed.




End Gestures.

(** ** The rotation helpers *)
Section RotationHelpers.
Import PdfBbox.

Lemma rot360_mod (rotation : Z) : rot360 (Some rotation) = (rotation mod 360)%Z.
Proof.
  unfold rot360, default; cbn [from_option id].
  pose proof (Z.quot_rem' rotation 360) as Hq.
  pose proof (Z.rem_bound_abs rotation 360 ltac:(lia)) as Hb.
  generalize dependent (Z.rem rotation 360). intros m Hq Hb.
  generalize dependent (rotation ÷ 360)%Z. intros q Hq.
  rewrite Z.rem_mod_nonneg by lia.
  Z.to_euclidean_division_equations. lia.
Qed.

Lemma rot360_not_quarter (rotation : Z) :
  (rotation mod 90 <> 0)%Z ->
  (rot360 (Some rotation) =? 90)%Z = false /\
  (rot360 (Some rotation) =? 180)%Z = false /\
  (rot360 (Some rotation) =? 270)%Z = false.
Proof.
  intros H. rewrite rot360_mod.
  repeat split; apply Z.eqb_neq; intros E;
    apply H; Z.to_euclidean_division_equations; lia.
Qed.

(** C6 (amended).  Both helpers reduce the rotation modulo 360 before use
    (a missing rotation counts as 0).  A rotation that is not a multiple
    of 90 degrees raises no error: the helpers return the point as given. *)
Theorem rotation_not_multiple_of_90
  (p : point) (rotation : Z) (width height : Q) :
  (rotation mod 90 <> 0)%Z ->
  rot360 (Some rotation) = (rotation mod 360)%Z /\
  rot360 None = 0%Z /\
  normalizeRotation p (Some rotation) width height = Return (fst p, snd p) /\
  applyRotation p (Some rotation) width height = Return (fst p, snd p).
Proof.
  intros H.
  destruct (rot360_not_quarter rotation H) as (E1 & E2 & E3).
  split; [apply rot360_mod|]. split; [reflexivity|].
  unfold normalizeRotation, applyRotation. rewrite E1, E2, E3.
  split; reflexivity.
Qed.

Lemma rotation_not_multiple_of_90_witness :
  rot360 (Some 405%Z) = 45%Z /\
  normalizeRotation (1, 2) (Some 405%Z) 10 20 = Return (1, 2) /\
  applyRotation (1, 2) (Some 405%Z) 10 20 = Return (1, 2).
Proof.
  destruct (rotation_not_multiple_of_90 (1, 2) 405 10 20) as (H1 & _ & H2 & H3).
  - discriminate.
  - split; [exact H1|]. split; [exact H2 | exact H3].
Defined.

(** C6, as stated, fails: at 45 degrees the call does not end with an
    error, it returns the point. *)
Lemma rotation_45_returns :
  normalizeRotation (1, 2) (Some 45%Z) 10 20 = Return (1, 2) /\
  normalizeRotation (1, 2) (Some 45%Z) 10 20 <> Throw "UnsupportedRotation".
Proof. split; [reflexivity | discriminate]. Qed.

End RotationHelpers.

(** ** The selection store and the extraction request *)
Section Store.
Import Viewer PdfBbox.


Lemma filter_other_of_other (fieldId : string) (l : list Selection) :
  filter (fun s : Selection => field_id s <> Some fieldId)
    (filter (fun s : Selection => field_id s <> Some fieldId) l)
  = filter (fun s : Selection => field_id s <> Some fieldId) l.
Proof.
  induction l as [|s l IH]; [reflexivity|].
  rewrite filter_cons. destruct (decide (field_id s <> Some fieldId)) as [Hne|He].
  - rewrite filter_cons. destruct (decide (field_id s <> Some fieldId)); [|contradiction].
    rewrite IH. reflexivity.
  - exact IH.
Qed.

Lemma applySuggestion_response_selections (host : Host) (config : Config)
    (mark : Selection) (resp : Response) (w : World) :
  selections (state (applySuggestion_response host config mark resp w))
  = selections (state w).
Proof.
  unfold applySuggestion_response.
  destruct resp as [|extracted]; [reflexivity|].
  destruct (truthy extracted); reflexivity.
Qed.




Lemma mouseup_response_failed (host : Host) (config : Config)
    (mark : Selection) (w : World) :
  mouseup_response host config mark Rejected w
    = emit (Warn "PDF extract failed:") w /\
  mouseup_response host config mark (Resolved None) w = w.
Proof. split; reflexivity. Qed.





End Store.

(** ** Applying extracted text *)
Section ApplyText.
Import PdfBbox.




End ApplyText.

(** * Further properties of the overlay controller *)

(** ** Rotation helpers: round trip and period *)
Section RotationRoundTrip.
Import PdfBbox.

(** X1.  [applyRotation] undoes [normalizeRotation] and the other way
    round, for every rotation and every surface size. *)
Theorem rotation_helpers_inverse
  (p : point) (rotation : option Z) (width height : Q) :
  (exists q p', normalizeRotation p rotation width height = Return q /\
                applyRotation q rotation width height = Return p' /\
                point_eq p' p) /\
  (exists q p', applyRotation p rotation width height = Return q /\
                normalizeRotation q rotation width height = Return p' /\
                point_eq p' p).
Proof.
  unfold normalizeRotation, applyRotation, point_eq.
  destruct (rot360 rotation =? 90)%Z eqn:E90;
    [|destruct (rot360 rotation =? 180)%Z eqn:E180;
      [|destruct (rot360 rotation =? 270)%Z eqn:E270]];
    (split; do 2 eexists; (split; [reflexivity|]); (split; [reflexivity|]);
     cbn [fst snd]; split; ring).
Qed.

Lemma rot360_period (rotation k : Z) :
  rot360 (Some (rotation + 360 * k)%Z) = rot360 (Some rotation).
Proof.
  rewrite !rot360_mod.
  rewrite Z.mul_comm, Z.mod_add by lia. reflexivity.
Qed.

(** X2.  The helpers depend on the rotation only modulo 360: adding any
    number of full turns, also negative ones, changes nothing, the result
    lies in 0..359, and a missing rotation acts as 0. *)
Theorem rotation_helpers_periodic
  (p : point) (rotation k : Z) (width height : Q) :
  normalizeRotation p (Some (rotation + 360 * k)%Z) width height
    = normalizeRotation p (Some rotation) width height /\
  applyRotation p (Some (rotation + 360 * k)%Z) width height
    = applyRotation p (Some rotation) width height /\
  (0 <= rot360 (Some rotation) < 360)%Z /\
  normalizeRotation p None width height
    = normalizeRotation p (Some 0%Z) width height.
Proof.
  unfold normalizeRotation, applyRotation.
  rewrite rot360_period. repeat split; try reflexivity;
    rewrite rot360_mod; apply Z.mod_pos_bound; lia.
Qed.

End RotationRoundTrip.

(** ** The pointer state of an overlay *)
Section PointerState.
Import Viewer PdfBbox.

Lemma spanRect_spans (ax ay bx by' : Q) :
  let r := spanRect ax ay bx by' in
  0 <= r_width r /\ 0 <= r_height r /\
  r_left r <= ax <= r_left r + r_width r /\
  r_left r <= bx <= r_left r + r_width r /\
  r_top r <= ay <= r_top r + r_height r /\
  r_top r <= by' <= r_top r + r_height r.
Proof.
  cbv zeta. unfold spanRect; cbn [r_left r_top r_width r_height].
  assert (Hx := Q.min_spec ax bx). assert (Hy := Q.min_spec ay by').
  assert (Hax : Qabs (bx - ax) == bx - ax \/ Qabs (bx - ax) == ax - bx).
  { apply Qabs_case; intros; [left; reflexivity | right; ring]. }
  assert (Hay : Qabs (by' - ay) == by' - ay \/ Qabs (by' - ay) == ay - by').
  { apply Qabs_case; intros; [left; reflexivity | right; ring]. }
  assert (H0x := Qabs_nonneg (bx - ax)). assert (H0y := Qabs_nonneg (by' - ay)).
  assert (Hlx := Qle_Qabs (bx - ax)). assert (Hly := Qle_Qabs (by' - ay)).
  assert (Hlx' := Qle_Qabs (ax - bx)). assert (Hly' := Qle_Qabs (ay - by')).
  rewrite (Qabs_Qminus ax bx) in Hlx'. rewrite (Qabs_Qminus ay by') in Hly'.
  destruct Hx as [[? Hx]|[? Hx]], Hy as [[? Hy]|[? Hy]];
    rewrite Hx, Hy; repeat split; lra.
Qed.

(** X3.  While a drag is in progress, a pointer move keeps the start of
    the drag and redraws the preview as a rectangle of non-negative size
    that has the start and the pointer on its border box. *)
Theorem mousemove_preview_spans
  (ov : Overlay) (e : MouseEvent) (d : Drag) :
  drag ov = Some d ->
  exists d', drag (mousemove ov e) = Some d' /\
    pageIndex (mousemove ov e) = pageIndex ov /\
    startX d' = startX d /\ startY d' = startY d /\
    let p := getOverlayPoint e in
    let r := el d' in
    0 <= r_width r /\ 0 <= r_height r /\
    r_left r <= startX d <= r_left r + r_width r /\
    r_left r <= fst p <= r_left r + r_width r /\
    r_top r <= startY d <= r_top r + r_height r /\
    r_top r <= snd p <= r_top r + r_height r.
Proof.
  intros Hd. unfold mousemove. rewrite Hd.
  eexists. split; [reflexivity|]. cbn [drag pageIndex startX startY el].
  repeat (split; [reflexivity|]).
  apply spanRect_spans.
Qed.

Lemma mousemove_preview_spans_witness :
  exists d', drag (mousemove Scenario.dragging (Scenario.pointer 60 180)) = Some d' /\
    startX d' = 100 /\ startY d' = 100 /\
    r_left (el d') <= 60 <= r_left (el d') + r_width (el d').
Proof.
  destruct (mousemove_preview_spans Scenario.dragging (Scenario.pointer 60 180)
              (mkDrag 100 100 (mkScreen 100 100 0 0)) eq_refl)
    as (d' & Hd & _ & Hx & Hy & H).
  cbv zeta in H. destruct H as (_ & _ & _ & Hp & _).
  exists d'. split; [exact Hd|]. split; [exact Hx|]. split; [exact Hy|].
  split; [|apply Qle_trans with (1 := proj2 Hp), Qle_refl].
  apply Qle_trans with (2 := proj1 Hp). apply Qle_refl.
Defined.

(** X4.  Every release of the button leaves the overlay idle, stored mark
    or not, keeps the overlay on its page, and writes nothing into the form
    and nothing into the active field or the suggestions. *)
Theorem mouseup_always_idle
  (config : Config) (app : option App) (newId : string) (w : World)
  (ov : Overlay) (e : MouseEvent) :
  let out := mouseup config app newId w ov e in
  drag (snd (fst out)) = None /\
  pageIndex (snd (fst out)) = pageIndex ov /\
  form (fst (fst out)) = form w /\
  activeFieldId (state (fst (fst out))) = activeFieldId (state w) /\
  templateSuggestions (state (fst (fst out))) = templateSuggestions (state w).
Proof.
  cbv zeta. unfold mouseup.
  destruct (drag ov) as [d|] eqn:Hd; [|cbn [fst snd]; auto].
  destruct (Qltb _ 4 || Qltb _ 4); [cbn; auto|].
  destruct (app ≫= _) as [pv|]; [|cbn; auto].
  destruct (pdfPage pv) as [pageRect|], (canvas pv) as [c|]; try (cbn; auto).
  cbn [fst snd drag pageIndex].
  split; [reflexivity|]. split; [reflexivity|].
  unfold emit; cbn [form state].
  rewrite renderBboxes_form. cbn [withSelections form].
  split; [reflexivity|].
  unfold renderBboxes. destruct app as [a|]; [|auto].
  destruct (getPageView a (app_page a - 1)) as [pv'|]; [|auto].
  destruct (canvas pv'); [|auto].
  destruct (pdfPage pv'); auto.
Qed.

End PointerState.

(** ** Drawing and clearing the marks of a page *)
Section Drawing.
Import Viewer PdfBbox.

(** X5.  Drawing is idempotent: a second [renderBboxes] in a row leaves
    the state, the form and every overlay as the first one left them, so
    boxes never pile up.  Drawing never changes the store, and it touches
    at most the overlay of the page the viewer shows. *)
Theorem renderBboxes_idempotent (app : option App) (w : World) :
  let once := renderBboxes app w in
  let twice := renderBboxes app once in
  state twice = state once /\
  form twice = form once /\
  overlays twice = overlays once /\
  selections (state once) = selections (state w) /\
  (overlays once = overlays w \/
   exists a boxes, app = Some a /\
     overlays once = <[(app_page a - 1)%Z := boxes]> (overlays w)).
Proof.
  cbv zeta. unfold renderBboxes.
  destruct app as [a|]; [|auto 6].
  destruct (getPageView a (app_page a - 1)) as [pv|] eqn:Hpv;
    [|cbn; try rewrite Hpv; auto 6].
  destruct (canvas pv) as [c|] eqn:Hc;
    [|cbn; try rewrite Hpv; try rewrite Hc; auto 6].
  destruct (pdfPage pv) as [pageRect|] eqn:Hp.
  - cbn. rewrite insert_insert_eq. repeat split; eauto.
  - cbn. rewrite insert_insert_eq. repeat split; eauto.
Qed.

(** What a release on the page the viewer shows leaves behind. *)
Lemma mouseup_on_current_page (config : Config) (a : App) (newId : string)
    (w : World) (ov : Overlay) (e : MouseEvent) (d : Drag) (pv : PageView)
    (pageRect : Box) (c : Canvas) :
  drag ov = Some d ->
  (app_page a - 1)%Z = pageIndex ov ->
  getPageView a (pageIndex ov) = Some pv ->
  pdfPage pv = Some pageRect -> canvas pv = Some c ->
  let p := getOverlayPoint e in
  let r := spanRect (startX d) (startY d) (fst p) (snd p) in
  4 <= r_width r -> 4 <= r_height r ->
  exists boxes,
    overlays (fst (fst (mouseup config (Some a) newId w ov e))) !! pageIndex ov
    = Some (boxes ++
            [{| box := rendered (viewport pv) pageRect (offsetWidth c)
                         (rect_of (dragSelection newId (activeFieldId (state w))
                                     (pageIndex ov) pv pageRect c r));
                bbox_field := activeFieldId (state w);
                active := true |}]).
Proof.
  intros Hd Hpage Hpv Hp Hc. cbv zeta. intros Hw Hh.
  unfold mouseup. rewrite Hd.
  apply Qltb_ge in Hw, Hh. rewrite Hw, Hh. cbn [orb mbind option_bind].
  rewrite Hpv, Hp, Hc. cbn [fst].
  unfold emit at 1; cbn [overlays].
  unfold renderBboxes. rewrite Hpage, Hpv, Hc, Hp.
  cbn [emit overlays withOverlay withActivePage withSelections state
       selections activeFieldId].
  rewrite lookup_insert_eq, filter_app, fmap_app, filter_cons, filter_nil.
  cbn [page dragSelection].
  destruct (decide (pageIndex ov = pageIndex ov)) as [_|Hne]; [|contradiction].
  eexists. cbn [fmap list_fmap field_id dragSelection].
  rewrite bool_decide_eq_true_2 by reflexivity. reflexivity.
Qed.

(** X6.  On a page shown at a quarter-turn rotation, the box drawn for a
    mark right after the release lies exactly where the drag rectangle was,
    is the last box of the page and is shown as active. *)
Theorem drawn_box_is_drag_rectangle
  (config : Config) (a : App) (newId : string) (w : World) (ov : Overlay)
  (e : MouseEvent) (d : Drag) (pv : PageView) (pageRect : Box) (c : Canvas) :
  drag ov = Some d ->
  (app_page a - 1)%Z = pageIndex ov ->
  getPageView a (pageIndex ov) = Some pv ->
  pdfPage pv = Some pageRect -> canvas pv = Some c ->
  upright (transform (viewport pv)) ->
  ~ width (viewport pv) == 0 -> ~ offsetWidth c == 0 ->
  4 <= r_width (spanRect (startX d) (startY d)
                  (fst (getOverlayPoint e)) (snd (getOverlayPoint e))) ->
  4 <= r_height (spanRect (startX d) (startY d)
                   (fst (getOverlayPoint e)) (snd (getOverlayPoint e))) ->
  exists boxes b,
    overlays (fst (fst (mouseup config (Some a) newId w ov e))) !! pageIndex ov
    = Some (boxes ++ [b]) /\
    screen_eq (box b)
      (spanRect (startX d) (startY d)
         (fst (getOverlayPoint e)) (snd (getOverlayPoint e))) /\
    bbox_field b = activeFieldId (state w) /\
    active b = true.
Proof.
  intros Hd Hpage Hpv Hp Hc Hup Hvw Hcw Hw Hh.
  destruct (mouseup_on_current_page config a newId w ov e d pv pageRect c
              Hd Hpage Hpv Hp Hc Hw Hh) as (boxes & Hov).
  do 2 eexists. split; [exact Hov|]. cbn [box bbox_field active].
  split; [|split; reflexivity].
  exact (rendered_normalized (viewport pv) pageRect (offsetWidth c) Hup Hvw Hcw
           (spanRect (startX d) (startY d)
              (fst (getOverlayPoint e)) (snd (getOverlayPoint e)))
           (Qabs_nonneg _) (Qabs_nonneg _)).
Qed.

Lemma drawn_box_is_drag_rectangle_witness :
  exists boxes b,
    overlays (fst (fst (mouseup Scenario.config
                          (Some (Scenario.viewer Scenario.a4Viewport)) "m1"
                          (Scenario.worldOf (Some "title") [] [])
                          Scenario.dragging (Scenario.pointer 300 150))))
      !! 0%Z
    = Some (boxes ++ [b]) /\
    screen_eq (box b) (spanRect 100 100 (300 - 0) (150 - 0)) /\
    bbox_field b = Some "title" /\
    active b = true.
Proof.
  apply (drawn_box_is_drag_rectangle Scenario.config
           (Scenario.viewer Scenario.a4Viewport) "m1"
           (Scenario.worldOf (Some "title") [] []) Scenario.dragging
           (Scenario.pointer 300 150)
           (mkDrag 100 100 (mkScreen 100 100 0 0))
           (Scenario.pageViewAt Scenario.a4Viewport) Scenario.a4
           (mkCanvas 1190 1684)
           eq_refl eq_refl eq_refl eq_refl eq_refl).
  - left. repeat split; try reflexivity; discriminate.
  - discriminate.
  - discriminate.
  - discriminate.
  - discriminate.
Defined.

Lemma filter_page_twice (i : Z) (l : list Selection) :
  filter (fun s : Selection => page s <> i)
    (filter (fun s : Selection => page s <> i) l)
  = filter (fun s : Selection => page s <> i) l.
Proof.
  induction l as [|s l IH]; [reflexivity|].
  rewrite filter_cons. destruct (decide (page s <> i)) as [Hne|He].
  - rewrite filter_cons. destruct (decide (page s <> i)); [|contradiction].
    rewrite IH. reflexivity.
  - exact IH.
Qed.

Lemma renderBboxes_active_page (a : App) (w : World) :
  activePageIndex (state (renderBboxes (Some a) w)) = (app_page a - 1)%Z.
Proof.
  unfold renderBboxes.
  destruct (getPageView a (app_page a - 1)) as [pv|]; [|reflexivity].
  destruct (canvas pv); [|reflexivity].
  destruct (pdfPage pv); reflexivity.
Qed.

Lemma clearPageSelections_loaded (a : App) (w : World) :
  selections (state (clearPageSelections (Some a) w))
    = filter (fun s : Selection => page s <> activePageIndex (state w))
        (selections (state w)) /\
  form (clearPageSelections (Some a) w) = form w /\
  activePageIndex (state (clearPageSelections (Some a) w)) = (app_page a - 1)%Z.
Proof.
  unfold clearPageSelections.
  rewrite renderBboxes_selections, renderBboxes_form, renderBboxes_active_page.
  repeat split.
Qed.

(** X7.  With the viewer loaded, [clearPageSelections] removes exactly
    the marks of the page recorded as active and keeps all others in their
    order; the form is not touched, and the page the viewer shows becomes
    the active one.  A second clear removes the marks of that page too, so
    when the recorded page already was the shown one it removes nothing
    more. *)
Theorem clearPageSelections_removes_active_page
  (app : option App) (a : App) (w : World) :
  app = Some a ->
  let cleared := clearPageSelections app w in
  let again := clearPageSelections app cleared in
  selections (state cleared)
    = filter (fun s : Selection => page s <> activePageIndex (state w))
        (selections (state w)) /\
  Forall (fun s : Selection => page s <> activePageIndex (state w))
    (selections (state cleared)) /\
  form cleared = form w /\
  activePageIndex (state cleared) = (app_page a - 1)%Z /\
  selections (state again)
    = filter (fun s : Selection => page s <> (app_page a - 1)%Z)
        (selections (state cleared)).
Proof.
  intros ->. cbv zeta.
  destruct (clearPageSelections_loaded a w) as (Hsel & Hform & Hact).
  destruct (clearPageSelections_loaded a (clearPageSelections (Some a) w))
    as (Hsel' & _ & _).
  rewrite Hsel', Hact, Hsel, Hform.
  repeat split.
  apply list.Forall_forall. intros s Hs.
  apply list_elem_of_filter in Hs. tauto.
Qed.

Lemma clearPageSelections_removes_active_page_witness :
  let w := Scenario.worldOf None
             [Scenario.manualTitle; Scenario.otherPage; Scenario.manualDoi] [] in
  selections (state (clearPageSelections
                       (Some (Scenario.viewer Scenario.a4Viewport)) w))
  = [Scenario.otherPage].
Proof.
  destruct (clearPageSelections_removes_active_page
              (Some (Scenario.viewer Scenario.a4Viewport))
              (Scenario.viewer Scenario.a4Viewport)
              (Scenario.worldOf None
                 [Scenario.manualTitle; Scenario.otherPage; Scenario.manualDoi] [])
              eq_refl) as (H & _).
  exact H.
Defined.

(** X8.  A key press handled by [bindEscape] never adds or reorders marks
    and never touches the form: the marks that are not on the active page
    all stay, and any key other than Escape, a missing iframe and a missing
    viewer leave the whole store as it is. *)
Theorem bindEscape_only_removes_active_page
  (key : string) (pdfIframe : option (option App)) (w : World) :
  let w' := bindEscape key pdfIframe w in
  filter (fun s : Selection => page s <> activePageIndex (state w))
    (selections (state w'))
  = filter (fun s : Selection => page s <> activePageIndex (state w))
      (selections (state w)) /\
  sublist (selections (state w')) (selections (state w)) /\
  form w' = form w /\
  (selections (state w') = selections (state w) \/
   key = "Escape" /\ exists a, pdfIframe = Some (Some a)).
Proof.
  cbv zeta. unfold bindEscape.
  assert (Hsame : forall l : list Selection,
             filter (fun s : Selection => page s <> activePageIndex (state w)) l
             = filter (fun s : Selection => page s <> activePageIndex (state w)) l /\
             sublist l l /\ form w = form w /\
             (l = l \/ key = "Escape" /\ exists a, pdfIframe = Some (Some a)))
    by (intros l; repeat split; auto).
  destruct (String.eqb key "Escape") eqn:Ek; cbn [negb]; [|apply Hsame].
  apply String.eqb_eq in Ek.
  destruct pdfIframe as [app|]; [|apply Hsame].
  destruct (selections (state w)) as [|s l] eqn:Hs;
    [rewrite Hs; apply Hsame|].
  destruct app as [a|]; [|cbn [clearPageSelections]; rewrite Hs; apply Hsame].
  destruct (clearPageSelections_loaded a w) as (Hsel & Hform & _).
  rewrite Hsel, Hform, Hs, filter_page_twice.
  split; [reflexivity|]. split; [apply sublist_filter|].
  split; [reflexivity|]. right. split; [assumption|]. exists a. reflexivity.
Qed.

(** X9.  [setActiveField] ignores an empty or missing field, so the active
    field, once set, can never be cleared again.  After it has set a field,
    a press of the primary button starts a drag at the pointer, with an
    empty preview and without any notice. *)
Theorem setActiveField_enables_drag
  (fieldId other : option string) (w : World) (ov : Overlay) (e : MouseEvent) :
  truthy fieldId = true -> button e = 0%Z ->
  let w1 := setActiveField fieldId w in
  let p := getOverlayPoint e in
  activeFieldId (state w1) = fieldId /\
  truthy (activeFieldId (state (setActiveField other w1))) = true /\
  setActiveField None w1 = w1 /\
  setActiveField (Some "") w1 = w1 /\
  mousedown w1 ov e
  = (w1, {| pageIndex := pageIndex ov;
            drag := Some {| startX := fst p; startY := snd p;
                            el := {| r_left := fst p; r_top := snd p;
                                     r_width := 0; r_height := 0 |} |} |}).
Proof.
  intros Hf Hb. cbv zeta. unfold setActiveField. rewrite Hf.
  split; [reflexivity|]. split.
  { destruct (truthy other) eqn:Ho; cbn; assumption. }
  split; [reflexivity|]. split; [reflexivity|].
  unfold mousedown. rewrite Hb. cbn [Z.eqb negb withActiveField state activeFieldId].
  rewrite Hf. reflexivity.
Qed.

Lemma setActiveField_enables_drag_witness :
  fst (mousedown (setActiveField (Some "doi") (Scenario.worldOf None [] []))
         Scenario.idle (Scenario.pointer 10 20))
  = setActiveField (Some "doi") (Scenario.worldOf None [] []).
Proof.
  destruct (setActiveField_enables_drag (Some "doi") None
              (Scenario.worldOf None [] []) Scenario.idle
              (Scenario.pointer 10 20) eq_refl eq_refl)
    as (_ & _ & _ & _ & H).
  rewrite H. reflexivity.
Defined.

End Drawing.

(** ** Requests and answers *)
Section Requests.
Import Viewer PdfBbox.

Lemma fieldOptions_references (fieldId : option string) :
  (join_lines (fieldOptions fieldId) = false <->
   fieldId = Some "references_ru" \/ fieldId = Some "references_en") /\
  strip_prefix (fieldOptions fieldId) = join_lines (fieldOptions fieldId) /\
  fix_hyphenation (fieldOptions fieldId) = true /\
  merge_by_field (fieldOptions fieldId) = false.
Proof.
  unfold fieldOptions.
  destruct (bool_decide (fieldId = Some "references_ru")) eqn:E1;
    destruct (bool_decide (fieldId = Some "references_en")) eqn:E2;
    cbn; repeat split; try tauto; try discriminate;
    try (apply bool_decide_eq_true_1 in E1; tauto);
    try (apply bool_decide_eq_true_1 in E2; tauto).
  apply bool_decide_eq_false_1 in E1, E2. tauto.
Qed.

(** X10.  The extraction request a release sends is the last entry of the
    trace and carries exactly the new mark, the configured file and the
    options of the mark's field: line joining and prefix stripping are
    switched off for the two references fields and for no other field,
    hyphenation repair is always on and merging by field always off. *)
Theorem extraction_request_of_drag
  (config : Config) (app : option App) (newId : string) (w w1 : World)
  (ov ov1 : Overlay) (e : MouseEvent) (mark : Selection) :
  mouseup config app newId w ov e = (w1, ov1, Some mark) ->
  last (trace w1)
  = Some (ExtractRequest (default "/api/pdf-extract-text" (extractEndpoint config))
            {| pdf_file := default "" (pdfFile config);
               req_selections := [mark];
               options := fieldOptions (field_id mark) |}) /\
  field_id mark = activeFieldId (state w) /\
  (join_lines (fieldOptions (field_id mark)) = false <->
   field_id mark = Some "references_ru" \/ field_id mark = Some "references_en") /\
  strip_prefix (fieldOptions (field_id mark))
    = join_lines (fieldOptions (field_id mark)) /\
  fix_hyphenation (fieldOptions (field_id mark)) = true /\
  merge_by_field (fieldOptions (field_id mark)) = false.
Proof.
  intros Hup.
  destruct (mouseup_cases config app newId w ov e)
    as [(ov' & Hnone)|(d & pv & pageRect & c & _ & _ & _ & _ & H)].
  { rewrite Hnone in Hup. discriminate Hup. }
  cbv zeta in H. destruct H as (_ & _ & Hrun).
  rewrite Hrun in Hup. injection Hup as <- _ <-.
  split; [|split; [reflexivity | apply fieldOptions_references]].
  unfold emit; cbn [trace]. rewrite last_snoc. reflexivity.
Qed.

Lemma extraction_request_of_drag_witness :
  exists w1 ov1 mark,
    mouseup Scenario.config (Some (Scenario.viewer Scenario.a4Viewport)) "m1"
      (Scenario.worldOf (Some "references_ru") [] []) Scenario.dragging
      (Scenario.pointer 300 150) = (w1, ov1, Some mark) /\
    join_lines (fieldOptions (field_id mark)) = false.
Proof.
  do 3 eexists. split; [reflexivity|].
  destruct (extraction_request_of_drag Scenario.config
              (Some (Scenario.viewer Scenario.a4Viewport)) "m1"
              (Scenario.worldOf (Some "references_ru") [] []) _
              Scenario.dragging _ (Scenario.pointer 300 150) _ eq_refl)
    as (_ & Hf & Hj & _).
  apply Hj. left. exact Hf.
Defined.

(** X11.  An answer with a non-empty text gives the text to the apply
    function for the mark's field and leaves the store as it is.  The mark
    is sent to the template store, with its own geometry and page size,
    exactly when an ISSN is set and the mark has a field; otherwise nothing
    is sent. *)
Theorem extraction_answer_feeds_template
  (host : Host) (config : Config) (mark : Selection) (text : string)
  (w : World) :
  text <> "" ->
  let w' := mouseup_response host config mark (Resolved (Some text)) w in
  selections (state w') = selections (state w) /\
  form w' = applyFn host config (field_id mark) text (form w) /\
  overlays w' = overlays w /\
  trace w'
  = trace w ++
    (if truthy (currentIssn (state w)) && truthy (field_id mark)
     then [TemplateSave (default "" (currentIssn (state w)))
             (default "" (journalName (state w))) (field_id mark)
             {| c_page := page mark;
                c_pdf_x1 := pdf_x1 mark; c_pdf_y1 := pdf_y1 mark;
                c_pdf_x2 := pdf_x2 mark; c_pdf_y2 := pdf_y2 mark;
                c_page_width := page_width mark;
                c_page_height := page_height mark |}]
     else []).
Proof.
  intros Ht. cbv zeta. unfold mouseup_response.
  assert (Htr : truthy (Some text) = true).
  { cbn. apply negb_true_iff, String.eqb_neq. exact Ht. }
  rewrite Htr. cbn [default from_option id withForm state].
  unfold saveToTemplate; cbn [withForm state].
  destruct (currentIssn (state w)) as [issn|] eqn:Hi.
  2:{ cbn. rewrite app_nil_r. repeat split. }
  destruct (truthy (Some issn)) eqn:Hti; cbn [negb orb andb].
  2:{ cbn. rewrite app_nil_r. repeat split. }
  destruct (truthy (field_id mark)) eqn:Htf; cbn [negb].
  - cbn. repeat split.
  - cbn. rewrite app_nil_r. repeat split.
Qed.

Lemma extraction_answer_feeds_template_witness :
  let w := setIssn (Some "1234-5678") (Some "Journal")
             (Scenario.worldOf (Some "title") [Scenario.manualTitle] []) in
  exists entry,
    trace (mouseup_response Scenario.host Scenario.config Scenario.manualTitle
             (Resolved (Some "A title")) w) = [entry] /\
    values (form (mouseup_response Scenario.host Scenario.config
                    Scenario.manualTitle (Resolved (Some "A title")) w))
      !! "title" = Some "A title".
Proof.
  destruct (extraction_answer_feeds_template Scenario.host Scenario.config
              Scenario.manualTitle "A title"
              (setIssn (Some "1234-5678") (Some "Journal")
                 (Scenario.worldOf (Some "title") [Scenario.manualTitle] [])))
    as (_ & Hform & _ & Htrace).
  - discriminate.
  - cbv zeta. eexists. split; [exact Htrace|].
    rewrite Hform. reflexivity.
Defined.

End Requests.

(** ** The form *)
Section FormFacts.
Import PdfBbox.

(** X12.  [defaultApplyExtractedText] does nothing at all for a missing
    or empty field id and for an empty text.  In every case it changes at
    most the value of the named field, and only if that field exists: no
    other field is written and no field is created or removed. *)
Theorem defaultApplyExtractedText_frame
  (h : Host) (fieldId : option string) (text : string) (f : Form) :
  let after := defaultApplyExtractedText h fieldId text f in
  defaultApplyExtractedText h None text f = f /\
  defaultApplyExtractedText h (Some "") text f = f /\
  defaultApplyExtractedText h fieldId "" f = f /\
  (forall key : string,
      values after !! key = values f !! key \/
      fieldId = Some key /\ is_Some (values f !! key) /\
      is_Some (values after !! key)) /\
  (after = f \/ exists key, fieldId = Some key /\ focus after = Some key /\
                            inputEvents after = inputEvents f ++ [key]).
Proof.
  cbv zeta. split; [reflexivity|]. split; [reflexivity|].
  split.
  { unfold defaultApplyExtractedText. destruct fieldId as [fid|]; [|reflexivity].
    rewrite orb_true_r. reflexivity. }
  unfold defaultApplyExtractedText.
  destruct fieldId as [fid|]; [|auto].
  destruct (String.eqb fid "" || String.eqb text ""); [auto|].
  destruct (values f !! fid) as [current|] eqn:Hcur; [|auto].
  cbn [values focus inputEvents]. split.
  - intros key. destruct (decide (fid = key)) as [->|Hne].
    + right. rewrite lookup_insert_eq, Hcur. eauto.
    + left. rewrite lookup_insert_ne by assumption. reflexivity.
  - right. exists fid. auto.
Qed.



End FormFacts.

(** ** Template suggestions *)
Section Suggestions.
Import Viewer PdfBbox.

Lemma renderBboxes_templates (app : option App) (w : World) :
  templateSuggestions (state (renderBboxes app w)) = templateSuggestions (state w).
Proof.
  unfold renderBboxes. destruct app as [a|]; [|reflexivity].
  destruct (getPageView a (app_page a - 1)) as [pv|]; [|reflexivity].
  destruct (canvas pv); [|reflexivity].
  destruct (pdfPage pv); reflexivity.
Qed.

Lemma applySuggestion_response_templates (host : Host) (config : Config)
    (mark : Selection) (resp : Response) (w : World) :
  templateSuggestions (state (applySuggestion_response host config mark resp w))
  = templateSuggestions (state w).
Proof.
  unfold applySuggestion_response.
  destruct resp as [|extracted]; [reflexivity|].
  destruct (truthy extracted); reflexivity.
Qed.

(** What [applySuggestion] does with a suggestion and a loaded viewer. *)
Lemma applySuggestion_loaded (config : Config) (a : App) (newId fieldId : string)
    (w : World) (sg : Suggestion) :
  templateSuggestions (state w) !! fieldId = Some sg ->
  snd (applySuggestion config (Some a) newId fieldId w)
    = Some (suggestionSelection newId fieldId sg) /\
  selections (state (fst (applySuggestion config (Some a) newId fieldId w)))
    = filter (fun s : Selection => field_id s <> Some fieldId)
        (selections (state w)) ++ [suggestionSelection newId fieldId sg] /\
  templateSuggestions
    (state (fst (applySuggestion config (Some a) newId fieldId w)))
    = templateSuggestions (state w) /\
  form (fst (applySuggestion config (Some a) newId fieldId w)) = form w.
Proof.
  intros Hsg. unfold applySuggestion. rewrite Hsg. cbn [fst snd].
  unfold emit; cbn [state form].
  rewrite renderBboxes_selections, renderBboxes_templates, renderBboxes_form.
  repeat split.
Qed.

(** X14.  Whether or not a suggestion exists and whether or not the
    viewer is loaded, the synchronous part of [applySuggestion] never
    touches the marks of other fields, the form or the suggestions.  It
    either stores nothing and sends nothing, or stores one mark and sends
    the request for that mark as the last entry of the trace. *)
Theorem applySuggestion_frame
  (config : Config) (app : option App) (newId fieldId : string) (w : World) :
  let out := applySuggestion config app newId fieldId w in
  filter (fun s : Selection => field_id s <> Some fieldId)
    (selections (state (fst out)))
  = filter (fun s : Selection => field_id s <> Some fieldId)
      (selections (state w)) /\
  form (fst out) = form w /\
  templateSuggestions (state (fst out)) = templateSuggestions (state w) /\
  (snd out = None /\ selections (state (fst out)) = selections (state w) /\
   (trace (fst out) = trace w \/
    templateSuggestions (state w) !! fieldId = None /\
    trace (fst out)
    = trace w ++ [Notify ("Нет шаблона для поля " +:+ fieldId) "error"])
   \/
   exists mark, snd out = Some mark /\ field_id mark = Some fieldId /\
     last (selections (state (fst out))) = Some mark /\
     last (trace (fst out)) = Some (extractRequest config mark)).
Proof.
  cbv zeta.
  destruct (templateSuggestions (state w) !! fieldId) as [sg|] eqn:Hsg.
  - destruct app as [a|].
    + destruct (applySuggestion_loaded config a newId fieldId w sg Hsg)
        as (Hsnd & Hsel & Htpl & Hform).
      rewrite Hsel, Htpl, Hform, Hsnd.
      rewrite filter_app, filter_other_of_other, filter_cons, filter_nil.
      destruct (decide (field_id (suggestionSelection newId fieldId sg)
                        <> Some fieldId)) as [Hne|_];
        [exfalso; apply Hne; reflexivity|].
      rewrite app_nil_r. repeat split.
      right. eexists. split; [reflexivity|]. split; [reflexivity|].
      split; [apply last_snoc|].
      unfold applySuggestion. rewrite Hsg. cbn [fst].
      unfold emit; cbn [trace]. apply last_snoc.
    + unfold applySuggestion. rewrite Hsg. cbn [fst snd]. auto 8.
  - unfold applySuggestion. rewrite Hsg. cbn [fst snd].
    repeat split. left. repeat split. right. split; reflexivity.
Qed.

(** X15.  Applying the suggestion of a field again replaces the mark of
    the first application: whatever the first answer was, the store ends
    as after a single application with the second identifier.  The mark
    copies the page, the rectangle and the page size of the suggestion. *)
Theorem applySuggestion_twice
  (host : Host) (config : Config) (app : option App) (a : App)
  (id1 id2 fieldId : string) (w : World) (sg : Suggestion) (resp : Response) :
  templateSuggestions (state w) !! fieldId = Some sg ->
  app = Some a ->
  let first := applySuggestion config app id1 fieldId w in
  let answered := applySuggestion_response host config
                    (suggestionSelection id1 fieldId sg) resp (fst first) in
  let second := applySuggestion config app id2 fieldId answered in
  let mark := suggestionSelection id2 fieldId sg in
  selections (state (fst second))
  = selections (state (fst (applySuggestion config app id2 fieldId w))) /\
  selections (state (fst second))
  = filter (fun s : Selection => field_id s <> Some fieldId)
      (selections (state w)) ++ [mark] /\
  page mark = c_page (coords sg) /\
  rect_of mark = {| x1 := c_pdf_x1 (coords sg); y1 := c_pdf_y1 (coords sg);
                    x2 := c_pdf_x2 (coords sg); y2 := c_pdf_y2 (coords sg) |} /\
  page_width mark = c_page_width (coords sg) /\
  page_height mark = c_page_height (coords sg).
Proof.
  intros Hsg ->. cbv zeta.
  destruct (applySuggestion_loaded config a id1 fieldId w sg Hsg)
    as (_ & Hsel1 & Htpl1 & _).
  destruct (applySuggestion_loaded config a id2 fieldId w sg Hsg)
    as (_ & Hsel2 & _ & _).
  assert (Hsg' : templateSuggestions
                   (state (applySuggestion_response host config
                             (suggestionSelection id1 fieldId sg) resp
                             (fst (applySuggestion config (Some a) id1 fieldId w))))
                 !! fieldId = Some sg).
  { rewrite applySuggestion_response_templates, Htpl1. exact Hsg. }
  destruct (applySuggestion_loaded config a id2 fieldId _ sg Hsg')
    as (_ & Hsel & _ & _).
  rewrite Hsel, Hsel2, applySuggestion_response_selections, Hsel1.
  rewrite filter_app, filter_other_of_other, filter_cons, filter_nil.
  destruct (decide (field_id (suggestionSelection id1 fieldId sg)
                    <> Some fieldId)) as [Hne|_];
    [exfalso; apply Hne; reflexivity|].
  rewrite app_nil_r. repeat split.
Qed.

Lemma applySuggestion_twice_witness :
  let w := Scenario.worldOf None [Scenario.manualTitle; Scenario.manualDoi]
             [("title", Scenario.titleSuggestion)] in
  let app := Some (Scenario.viewer Scenario.a4Viewport) in
  let first := applySuggestion Scenario.config app "t1" "title" w in
  let answered := applySuggestion_response Scenario.host Scenario.config
                    (suggestionSelection "t1" "title" Scenario.titleSuggestion)
                    Rejected (fst first) in
  selections (state (fst (applySuggestion Scenario.config app "t2" "title" answered)))
  = [Scenario.manualDoi; suggestionSelection "t2" "title" Scenario.titleSuggestion].
Proof.
  destruct (applySuggestion_twice Scenario.host Scenario.config
              (Some (Scenario.viewer Scenario.a4Viewport))
              (Scenario.viewer Scenario.a4Viewport) "t1" "t2" "title"
              (Scenario.worldOf None [Scenario.manualTitle; Scenario.manualDoi]
                 [("title", Scenario.titleSuggestion)])
              Scenario.titleSuggestion Rejected eq_refl eq_refl)
    as (_ & H & _).
  exact H.
Defined.

Lemma filter_unsuggested_nil (l : list Selection) :
  filter (fun s : Selection => Forall (fun k => field_id s <> Some k) []) l = l.
Proof.
  induction l as [|s l IH]; [reflexivity|].
  rewrite filter_cons_True by constructor. rewrite IH. reflexivity.
Qed.

Lemma filter_unsuggested_cons (k : string) (rest : list string)
    (l : list Selection) :
  filter (fun s : Selection => Forall (fun k' => field_id s <> Some k') rest)
    (filter (fun s : Selection => field_id s <> Some k) l)
  = filter (fun s : Selection => Forall (fun k' => field_id s <> Some k') (k :: rest)) l.
Proof.
  induction l as [|s l IH]; [reflexivity|].
  rewrite !filter_cons.
  destruct (decide (field_id s <> Some k)) as [Hk|Hk].
  - rewrite filter_cons.
    destruct (decide (Forall (fun k' => field_id s <> Some k') rest)) as [Hr|Hr];
      destruct (decide (Forall (fun k' => field_id s <> Some k') (k :: rest)))
        as [Hkr|Hkr].
    + rewrite IH. reflexivity.
    + exfalso. apply Hkr. constructor; assumption.
    + exfalso. apply Hr. inversion Hkr; assumption.
    + exact IH.
  - destruct (decide (Forall (fun k' => field_id s <> Some k') (k :: rest)))
      as [Hkr|Hkr]; [|exact IH].
    exfalso. apply Hk. inversion Hkr; assumption.
Qed.

Lemma applyEach_store (host : Host) (config : Config) (a : App)
    (newId : string -> string) (resp : string -> Response) (keys : list string) :
  forall w : World,
  NoDup keys ->
  (forall k, k ∈ keys -> is_Some (templateSuggestions (state w) !! k)) ->
  templateSuggestions (state (applyEach host config (Some a) newId resp keys w))
    = templateSuggestions (state w) /\
  selections (state (applyEach host config (Some a) newId resp keys w))
  = filter (fun s : Selection => Forall (fun k => field_id s <> Some k) keys)
      (selections (state w))
    ++ templateMarks newId (templateSuggestions (state w)) keys.
Proof.
  induction keys as [|k rest IH]; intros w Hnd Hall.
  - cbn [applyEach templateMarks omap list_omap]. split; [reflexivity|].
    rewrite app_nil_r. symmetry. apply filter_unsuggested_nil.
  - apply NoDup_cons in Hnd. destruct Hnd as [Hk Hnd].
    destruct (Hall k (list_elem_of_here k rest)) as [sg Hsg].
    destruct (applySuggestion_loaded config a (newId k) k w sg Hsg)
      as (Hsnd & Hsel & Htpl & _).
    cbn [applyEach]. rewrite Hsnd.
    set (w1 := applySuggestion_response host config
                 (suggestionSelection (newId k) k sg) (resp k)
                 (fst (applySuggestion config (Some a) (newId k) k w))).
    assert (Htpl1 : templateSuggestions (state w1) = templateSuggestions (state w)).
    { unfold w1. rewrite applySuggestion_response_templates. exact Htpl. }
    assert (Hsel1 : selections (state w1)
                    = filter (fun s : Selection => field_id s <> Some k)
                        (selections (state w))
                      ++ [suggestionSelection (newId k) k sg]).
    { unfold w1. rewrite applySuggestion_response_selections. exact Hsel. }
    destruct (IH w1 Hnd) as (Htpl' & Hsel').
    { intros k' Hk'. rewrite Htpl1. apply Hall. apply list_elem_of_further, Hk'. }
    split; [rewrite Htpl', Htpl1; reflexivity|].
    rewrite Hsel', Hsel1, Htpl1, filter_app, filter_unsuggested_cons.
    rewrite filter_cons, filter_nil.
    destruct (decide (Forall (fun k' => field_id (suggestionSelection (newId k) k sg)
                                        <> Some k') rest)) as [_|Hn].
    + unfold templateMarks. cbn [omap list_omap]. rewrite Hsg. cbn [fmap option_fmap option_map].
      rewrite <- app_assoc. reflexivity.
    + exfalso. apply Hn. apply list.Forall_forall. intros k' Hk' E.
      cbn in E. injection E as <-. contradiction.
Qed.

(** X16.  With the viewer loaded and [keys] listing, without repetition,
    fields that all have a suggestion, [applyAllSuggestions] ends with the
    marks of the fields outside [keys], in their old order, followed by
    exactly one template mark for each key, in the order of the keys; the
    suggestions themselves are unchanged, whatever the answers were. *)
Theorem applyAllSuggestions_store
  (host : Host) (config : Config) (app : option App) (a : App)
  (newId : string -> string) (resp : string -> Response) (keys : list string)
  (w : World) :
  app = Some a -> NoDup keys ->
  (forall k, k ∈ keys -> is_Some (templateSuggestions (state w) !! k)) ->
  let w' := applyAllSuggestions host config app newId resp keys w in
  selections (state w')
  = filter (fun s : Selection => Forall (fun k => field_id s <> Some k) keys)
      (selections (state w))
    ++ templateMarks newId (templateSuggestions (state w)) keys /\
  length (templateMarks newId (templateSuggestions (state w)) keys) = length keys /\
  Forall (fun s : Selection => from_template s = true)
    (templateMarks newId (templateSuggestions (state w)) keys) /\
  templateSuggestions (state w') = templateSuggestions (state w).
Proof.
  intros -> Hnd Hall. cbv zeta.
  assert (Hlen : length (templateMarks newId (templateSuggestions (state w)) keys)
                 = length keys
                 /\ Forall (fun s : Selection => from_template s = true)
                      (templateMarks newId (templateSuggestions (state w)) keys)).
  { clear Hnd. unfold templateMarks. induction keys as [|k rest IH].
    - split; [reflexivity | constructor].
    - destruct (Hall k (list_elem_of_here k rest)) as [sg Hsg].
      destruct IH as [IH1 IH2].
      { intros k' Hk'. apply Hall, list_elem_of_further, Hk'. }
      cbn [omap list_omap]. rewrite Hsg. cbn [fmap option_fmap option_map length].
      split; [rewrite IH1; reflexivity|]. constructor; [reflexivity | exact IH2]. }
  destruct Hlen as [Hlen Hfrom].
  unfold applyAllSuggestions. destruct keys as [|k rest].
  - cbn. split; [|auto].
    rewrite app_nil_r. symmetry. apply filter_unsuggested_nil.
  - destruct (applyEach_store host config a newId resp (k :: rest)
                (notify ("Применение " +:+ pretty (length (k :: rest))
                         +:+ " шаблонов...") "info" w) Hnd Hall)
      as (Htpl & Hsel).
    unfold notify, emit in *; cbn [state] in *.
    rewrite Hsel, Htpl. auto.
Qed.

Lemma applyAllSuggestions_store_witness :
  selections
    (state (applyAllSuggestions Scenario.host Scenario.config
              (Some (Scenario.viewer Scenario.a4Viewport))
              (fun k => "id-" +:+ k) (fun _ => Rejected) ["title"]
              (Scenario.worldOf None [Scenario.manualTitle; Scenario.manualDoi]
                 [("title", Scenario.titleSuggestion)])))
  = [Scenario.manualDoi;
     suggestionSelection "id-title" "title" Scenario.titleSuggestion].
Proof.
  destruct (applyAllSuggestions_store Scenario.host Scenario.config
              (Some (Scenario.viewer Scenario.a4Viewport))
              (Scenario.viewer Scenario.a4Viewport)
              (fun k => "id-" +:+ k) (fun _ => Rejected) ["title"]
              (Scenario.worldOf None [Scenario.manualTitle; Scenario.manualDoi]
                 [("title", Scenario.titleSuggestion)])) as (H & _).
  - reflexivity.
  - apply NoDup_singleton.
  - intros k Hk. apply list_elem_of_singleton in Hk. subst k.
    exists Scenario.titleSuggestion. reflexivity.
  - exact H.
Defined.

End Suggestions.

(** ** Resetting and loading templates *)
Section Templates.
Import Viewer PdfBbox.

Lemma showSuggestionsPanel_state (w : World) :
  state (showSuggestionsPanel w) = state w /\
  form (showSuggestionsPanel w) = form w.
Proof.
  unfold showSuggestionsPanel.
  destruct (0 <? size (templateSuggestions (state w)))%nat; split; reflexivity.
Qed.

(** X17.  A successful answer to [resetFieldTemplate] removes the
    suggestion of the field and every mark of the field, and nothing else:
    the other suggestions, the other marks and the form stay.  A later
    [applySuggestion] for the field then finds no suggestion and stores
    nothing.  A failed or refused reset changes neither suggestions nor
    store, and without an ISSN or without the user's confirmation no
    request is sent. *)
Theorem resetFieldTemplate_removes_field
  (config : Config) (app : option App) (newId fieldId : string)
  (issue : option string) (field : option string) (confirmed : bool)
  (w : World) :
  let w' := resetFieldTemplate_response app fieldId (ResetResolved true issue) w in
  templateSuggestions (state w') = delete fieldId (templateSuggestions (state w)) /\
  templateSuggestions (state w') !! fieldId = None /\
  selections (state w')
    = filter (fun s : Selection => field_id s <> Some fieldId)
        (selections (state w)) /\
  form w' = form w /\
  snd (applySuggestion config app newId fieldId w') = None /\
  selections (state (fst (applySuggestion config app newId fieldId w')))
    = selections (state w') /\
  state (resetFieldTemplate_response app fieldId ResetRejected w) = state w /\
  state (resetFieldTemplate_response app fieldId (ResetResolved false issue) w)
    = state w /\
  snd (resetFieldTemplate field false w) = None /\
  snd (resetFieldTemplate field confirmed (withIssn None w)) = None /\
  snd (resetFieldTemplate None confirmed w) = None.
Proof.
  cbv zeta.
  assert (Hst : templateSuggestions
                  (state (resetFieldTemplate_response app fieldId
                            (ResetResolved true issue) w))
                = delete fieldId (templateSuggestions (state w)) /\
                selections
                  (state (resetFieldTemplate_response app fieldId
                            (ResetResolved true issue) w))
                = filter (fun s : Selection => field_id s <> Some fieldId)
                    (selections (state w)) /\
                form (resetFieldTemplate_response app fieldId
                        (ResetResolved true issue) w) = form w).
  { unfold resetFieldTemplate_response.
    destruct (showSuggestionsPanel_state
                (notify ("Шаблон для " +:+ quote +:+ fieldId +:+ quote +:+ " сброшен")
                   "info"
                   (renderBboxes app
                      (withSelections
                         (filter (fun s : Selection => field_id s <> Some fieldId)
                            (selections
                               (state (withTemplates
                                         (delete fieldId
                                            (templateSuggestions (state w))) w))))
                         (withTemplates
                            (delete fieldId (templateSuggestions (state w))) w)))))
      as [-> ->].
    unfold notify, emit; cbn [state form].
    rewrite renderBboxes_templates, renderBboxes_selections, renderBboxes_form.
    repeat split. }
  destruct Hst as (Htpl & Hsel & Hform).
  assert (Hnone : templateSuggestions
                    (state (resetFieldTemplate_response app fieldId
                              (ResetResolved true issue) w)) !! fieldId = None)
    by (rewrite Htpl; apply lookup_delete_eq).
  split; [exact Htpl|]. split; [exact Hnone|].
  split; [exact Hsel|]. split; [exact Hform|].
  split; [unfold applySuggestion; rewrite Hnone; reflexivity|].
  split; [unfold applySuggestion; rewrite Hnone; reflexivity|].
  split; [reflexivity|].
  split; [destruct (truthy issue); reflexivity|].
  unfold resetFieldTemplate. cbn.
  split; [destruct (negb (truthy (currentIssn (state w))) || negb (truthy field));
          reflexivity|].
  split; [reflexivity|].
  rewrite orb_true_r. reflexivity.
Qed.

(** X18.  A successful answer to [resetAllTemplates] leaves no suggestion
    and no mark, and on a loaded page the overlay of the page the viewer
    shows is redrawn without any box; the form is not touched.  A failed
    or refused answer changes nothing in the state. *)
Theorem resetAllTemplates_clears_everything
  (app : option App) (a : App) (pv : PageView) (c : Canvas)
  (issue : option string) (w : World) :
  app = Some a ->
  getPageView a (app_page a - 1) = Some pv ->
  canvas pv = Some c ->
  let w' := resetAllTemplates_response app (ResetResolved true issue) w in
  templateSuggestions (state w') = ∅ /\
  selections (state w') = [] /\
  overlays w' !! (app_page a - 1)%Z = Some [] /\
  form w' = form w /\
  state (resetAllTemplates_response app ResetRejected w) = state w /\
  resetAllTemplates_response app (ResetResolved false issue) w = w.
Proof.
  intros -> Hpv Hc. cbv zeta. unfold resetAllTemplates_response.
  unfold notify, emit; cbn [state form overlays].
  rewrite renderBboxes_templates, renderBboxes_selections, renderBboxes_form.
  repeat split.
  unfold renderBboxes. rewrite Hpv, Hc.
  destruct (pdfPage pv); cbn; apply lookup_insert_eq.
Qed.

Lemma resetAllTemplates_clears_everything_witness :
  overlays (resetAllTemplates_response
              (Some (Scenario.viewer Scenario.a4Viewport))
              (ResetResolved true None)
              (Scenario.worldOf None [Scenario.manualTitle]
                 [("title", Scenario.titleSuggestion)])) !! 0%Z = Some [].
Proof.
  destruct (resetAllTemplates_clears_everything
              (Some (Scenario.viewer Scenario.a4Viewport))
              (Scenario.viewer Scenario.a4Viewport)
              (Scenario.pageViewAt Scenario.a4Viewport) (mkCanvas 1190 1684) None
              (Scenario.worldOf None [Scenario.manualTitle]
                 [("title", Scenario.titleSuggestion)])
              eq_refl eq_refl eq_refl) as (_ & _ & H & _).
  exact H.
Defined.

(** X19.  [loadTemplateSuggestions] switches the ISSN at once, before any
    answer.  Only an answer with at least one suggestion replaces the
    suggestions; a failed call, an answer without suggestions and an answer
    with an empty table all keep the suggestions loaded before, now under
    the new ISSN.  Without an ISSN nothing is asked and nothing changes. *)
Theorem loadTemplateSuggestions_keeps_old_table
  (issn name : option string) (w : World) :
  truthy issn = true ->
  let asked := loadTemplateSuggestions issn w in
  snd asked = issn /\
  currentIssn (state (fst asked)) = issn /\
  templateSuggestions (state (fst asked)) = templateSuggestions (state w) /\
  state (loadTemplateSuggestions_response LoadRejected (fst asked))
    = state (fst asked) /\
  loadTemplateSuggestions_response (LoadResolved None name) (fst asked)
    = fst asked /\
  loadTemplateSuggestions_response (LoadResolved (Some ∅) name) (fst asked)
    = fst asked /\
  loadTemplateSuggestions None w = (w, None) /\
  loadTemplateSuggestions (Some "") w = (w, None).
Proof.
  intros Hi. cbv zeta. unfold loadTemplateSuggestions. rewrite Hi.
  repeat split.
Qed.

Lemma loadTemplateSuggestions_keeps_old_table_witness :
  let w := setIssn (Some "1111-1111") None
             (Scenario.worldOf None [] [("title", Scenario.titleSuggestion)]) in
  let w' := loadTemplateSuggestions_response (LoadResolved (Some ∅) None)
              (fst (loadTemplateSuggestions (Some "2222-2222") w)) in
  currentIssn (state w') = Some "2222-2222" /\
  templateSuggestions (state w') !! "title" = Some Scenario.titleSuggestion.
Proof.
  destruct (loadTemplateSuggestions_keeps_old_table (Some "2222-2222") None
              (setIssn (Some "1111-1111") None
                 (Scenario.worldOf None [] [("title", Scenario.titleSuggestion)]))
              eq_refl) as (_ & Hi & Ht & _ & _ & He & _).
  cbv zeta. rewrite He, Hi, Ht. split; reflexivity.
Defined.

(** A non-empty answer replaces the table and the journal name. *)
Lemma loadTemplateSuggestions_replaces (m : gmap string Suggestion)
    (name : option string) (w : World) :
  (0 < size m)%nat ->
  templateSuggestions
    (state (loadTemplateSuggestions_response (LoadResolved (Some m) name) w)) = m.
Proof.
  intros Hm. unfold loadTemplateSuggestions_response.
  apply Nat.ltb_lt in Hm. rewrite Hm. reflexivity.
Qed.

End Templates.

(** ** Waiting for the viewer *)
Section Waiting.
Import PdfBbox.

Lemma poll_spec (probe : nat -> Probe) (app : App) (ticks : nat) :
  forall attempts : nat,
  (attempts <= 120)%nat ->
  poll probe attempts ticks = Some app <->
  exists n, (attempts < n <= attempts + ticks)%nat /\ (n <= 121)%nat /\
            probe n = Ready app /\
            forall m, (attempts < m < n)%nat -> probe m = Loading.
Proof.
  induction ticks as [|ticks IH]; intros attempts Hle.
  - cbn. split; [discriminate|]. intros (n & Hn & _). lia.
  - cbn [poll]. destruct (probe (S attempts)) as [| |a] eqn:Hp.
    + split; [discriminate|]. intros (n & Hn & _ & Hr & Hl).
      destruct (decide (n = S attempts)) as [->|Hne]; [congruence|].
      rewrite (Hl (S attempts)) in Hp by lia. discriminate.
    + destruct (120 <? S attempts)%nat eqn:Hcap.
      * split; [discriminate|]. intros (n & Hn & Hcapn & Hr & Hl).
        apply Nat.ltb_lt in Hcap.
        assert (n = S attempts) by lia. subst n. congruence.
      * apply Nat.ltb_ge in Hcap. rewrite (IH (S attempts) Hcap).
        split; intros (n & Hn & Hcapn & Hr & Hl); exists n.
        -- repeat split; try lia; try assumption.
           intros m Hm. destruct (decide (m = S attempts)) as [->|Hne];
             [assumption | apply Hl; lia].
        -- assert (n <> S attempts) by congruence.
           repeat split; try lia; try assumption.
           intros m Hm. apply Hl. lia.
    + split.
      * intros E. injection E as ->. exists (S attempts).
        repeat split; try lia; try assumption.
      * intros (n & Hn & _ & Hr & Hl).
        destruct (decide (n = S attempts)) as [->|Hne]; [congruence|].
        rewrite (Hl (S attempts)) in Hp by lia. discriminate.
Qed.

Lemma poll_more_ticks (probe : nat -> Probe) (extra : nat) :
  poll probe 0 (121 + extra) = poll probe 0 121.
Proof.
  destruct (poll probe 0 121) as [app|] eqn:H121.
  - apply (poll_spec probe app (121 + extra) 0); [lia|].
    apply (poll_spec probe app 121 0) in H121; [|lia].
    destruct H121 as (n & Hn & Hrest). exists n. split; [lia | exact Hrest].
  - destruct (poll probe 0 (121 + extra)) as [app|] eqn:Hmore; [|reflexivity].
    apply (poll_spec probe app (121 + extra) 0) in Hmore; [|lia].
    destruct Hmore as (n & Hn & Hcap & Hrest).
    assert (Hsome : poll probe 0 121 = Some app).
    { apply (poll_spec probe app 121 0); [lia|].
      exists n. split; [lia|]. split; assumption. }
    congruence.
Qed.

(** X20.  [waitForPdfApp] gives the viewer exactly when one of the first
    121 ticks finds it ready and every earlier tick found it still loading;
    otherwise (iframe detached first, or 121 ticks without a ready viewer)
    it gives nothing.  The timer is stopped by then: no later tick and no
    later state of the page matters. *)
Theorem waitForPdfApp_bounded (probe probe' : nat -> Probe) (app : App) (extra : nat) :
  (forall n, (n <= 121)%nat -> probe' n = probe n) ->
  (waitForPdfApp probe = Some app <->
   exists n, (1 <= n <= 121)%nat /\ probe n = Ready app /\
             forall m, (1 <= m < n)%nat -> probe m = Loading) /\
  waitForPdfApp probe' = waitForPdfApp probe /\
  poll probe 0 (121 + extra) = waitForPdfApp probe.
Proof.
  intros Hsame. unfold waitForPdfApp.
  assert (Hspec : forall pr a,
             poll pr 0 121 = Some a <->
             exists n, (1 <= n <= 121)%nat /\ pr n = Ready a /\
                       forall m, (1 <= m < n)%nat -> pr m = Loading).
  { intros pr a. rewrite (poll_spec pr a 121 0) by lia.
    split; intros (n & H1 & H2); exists n.
    - destruct H2 as (_ & Hr & Hl). split; [lia|]. split; [assumption|].
      intros m Hm. apply Hl. lia.
    - destruct H2 as (Hr & Hl). split; [lia|]. split; [lia|].
      split; [assumption|]. intros m Hm. apply Hl. lia. }
  split; [apply Hspec|]. split; [|apply poll_more_ticks].
  destruct (poll probe 0 121) as [a|] eqn:H.
  - apply Hspec. apply Hspec in H. destruct H as (n & Hn & Hr & Hl).
    exists n. split; [assumption|]. split.
    + rewrite Hsame by lia. assumption.
    + intros m Hm. rewrite Hsame by lia. apply Hl. assumption.
  - destruct (poll probe' 0 121) as [a|] eqn:H'; [|reflexivity].
    apply Hspec in H'. destruct H' as (n & Hn & Hr & Hl).
    assert (Hsome : poll probe 0 121 = Some a).
    { apply Hspec. exists n. split; [assumption|]. split.
      - rewrite <- Hsame by lia. assumption.
      - intros m Hm. rewrite <- Hsame by lia. apply Hl. assumption. }
    congruence.
Qed.

Lemma waitForPdfApp_bounded_witness :
  waitForPdfApp (fun n => if (n <? 4)%nat then Loading
                          else if (n <? 200)%nat
                               then Ready (Scenario.viewer Scenario.a4Viewport)
                               else Detached)
  = waitForPdfApp (fun n => if (n <? 4)%nat then Loading
                            else Ready (Scenario.viewer Scenario.a4Viewport)).
Proof.
  destruct (waitForPdfApp_bounded
              (fun n => if (n <? 4)%nat then Loading
                        else Ready (Scenario.viewer Scenario.a4Viewport))
              (fun n => if (n <? 4)%nat then Loading
                        else if (n <? 200)%nat
                             then Ready (Scenario.viewer Scenario.a4Viewport)
                             else Detached)
              (Scenario.viewer Scenario.a4Viewport) 0) as (_ & H & _).
  - intros n Hn. destruct (n <? 4)%nat; [reflexivity|].
    destruct (n <? 200)%nat eqn:E; [reflexivity|].
    apply Nat.ltb_ge in E. lia.
  - exact H.
Defined.

End Waiting.

(** * Further properties of the stand-alone selection page *)

(** ** Pointer coordinates and stored rectangles *)
Section PageGeometry.
Import Viewer SelectionPage.

Lemma clampValue_bounds (value lo hi : Q) :
  lo <= hi -> lo <= clampValue value lo hi <= hi.
Proof.
  intros Hle. unfold clampValue.
  destruct (Q.max_spec lo (Qmin hi value)) as [[H1 E]|[H1 E]]; rewrite E.
  - split; [lra | apply Q.le_min_l].
  - split; lra.
Qed.

Lemma clampValue_inside (value lo hi : Q) :
  lo <= value <= hi -> clampValue value lo hi == value.
Proof.
  intros [H1 H2]. unfold clampValue.
  rewrite (Q.min_r hi value) by assumption.
  apply Q.max_r; assumption.
Qed.

(** X21.  The pointer position read by [getCanvasCoords] always lies on the
    canvas (whose sizes are not negative): a pointer outside is pulled
    back to the nearest edge, a pointer inside is taken as it is. *)
Theorem getCanvasCoords_on_canvas (event : MouseEvent) (c : Canvas) :
  0 <= canvasWidth c -> 0 <= canvasHeight c ->
  let p := getCanvasCoords event c in
  let x := clientX event - rectLeft c in
  let y := clientY event - rectTop c in
  0 <= fst p <= canvasWidth c /\ 0 <= snd p <= canvasHeight c /\
  (fst p == x \/ x < 0 /\ fst p == 0 \/ canvasWidth c < x /\ fst p == canvasWidth c) /\
  (snd p == y \/ y < 0 /\ snd p == 0 \/ canvasHeight c < y /\ snd p == canvasHeight c).
Proof.
  intros Hw Hh. cbv zeta. unfold getCanvasCoords; cbn [fst snd].
  split; [apply clampValue_bounds; assumption|].
  split; [apply clampValue_bounds; assumption|].
  assert (Hcases : forall v hi, 0 <= hi ->
             clampValue v 0 hi == v \/ v < 0 /\ clampValue v 0 hi == 0
             \/ hi < v /\ clampValue v 0 hi == hi).
  { intros v hi Hhi.
    destruct (Qlt_le_dec v 0) as [Hneg|Hpos].
    - right. left. split; [assumption|]. unfold clampValue.
      apply Q.max_l. eapply Qle_trans; [apply Q.le_min_r | lra].
    - destruct (Qlt_le_dec hi v) as [Hbig|Hsmall].
      + right. right. split; [assumption|]. unfold clampValue.
        rewrite (Q.min_l hi v) by lra. apply Q.max_r. assumption.
      + left. apply clampValue_inside. split; assumption. }
  split; apply Hcases; assumption.
Qed.

Lemma getCanvasCoords_on_canvas_witness :
  fst (getCanvasCoords (Scenario.click (-5) 2000)
         (mkCanvas 0 0 1190 1684)) == 0 /\
  snd (getCanvasCoords (Scenario.click (-5) 2000)
         (mkCanvas 0 0 1190 1684)) == 1684.
Proof.
  destruct (getCanvasCoords_on_canvas (Scenario.click (-5) 2000)
              (mkCanvas 0 0 1190 1684)) as (_ & _ & Hx & Hy).
  - discriminate.
  - discriminate.
  - cbv zeta in Hx, Hy. split.
    + destruct Hx as [Hx|[[_ Hx]|[Hx _]]]; [|exact Hx|].
      * reflexivity.
      * reflexivity.
    + destruct Hy as [Hy|[[_ Hy]|[_ Hy]]]; [|reflexivity| exact Hy].
      reflexivity.
Defined.





End PageGeometry.

Section PageControls.
Import Viewer SelectionPage.


(** X23.  After a drag that is large enough, with a field selected, the
    page is redrawn with the new mark last, and its overlay is the
    rectangle spanned by the two (clamped) pointer positions, at least 8
    pixels wide and high. *)
Theorem page_overlay_is_drag_rectangle
  (st : State) (pv : PageView) (c : Canvas) (eDown eUp : MouseEvent) :
  currentPageView st = Some pv -> canvas pv = Some c ->
  onPage eDown = true ->
  truthy (activeFieldId st) = true ->
  let a := getCanvasCoords eDown c in
  let b := getCanvasCoords eUp c in
  8 <= Qabs (Qmax (fst a) (fst b) - Qmin (fst a) (fst b)) ->
  8 <= Qabs (Qmax (snd a) (snd b) - Qmin (snd a) (snd b)) ->
  exists boxes box,
    renderSelectionsForPage (gesture st eDown eUp) = Some (boxes ++ [box]) /\
    screen_eq box (spanRect (fst a) (snd a) (fst b) (snd b)) /\
    8 <= r_width box /\ 8 <= r_height box.
Proof.
  intros Hpv Hc Hon Hf. cbv zeta. intros Hx Hy.
  unfold gesture, mousedown. rewrite Hpv, Hc, Hon. cbn [negb].
  unfold mouseup; cbn [isDragging dragStart currentPageView activeFieldId
                        selections errors negb].
  rewrite Hc.
  pose proof Hx as Hx'. pose proof Hy as Hy'.
  apply Qltb_ge in Hx', Hy'. rewrite Hx', Hy', Hf. cbn [orb negb].
  unfold renderSelectionsForPage;
    cbn [released currentPageView selections currentPage].
  rewrite filter_app, fmap_app, filter_cons, filter_nil.
  rewrite decide_True by reflexivity.
  do 2 eexists. split; [reflexivity|].
  cbn [dragSelection screen_x1 screen_x2 screen_y1 screen_y2].
  set (a := getCanvasCoords eDown c) in *.
  set (b := getCanvasCoords eUp c) in *.
  assert (Hmm : forall u v, Qmin (Qmin u v) (Qmax u v) == Qmin u v).
  { intros u v. apply Q.min_l.
    eapply Qle_trans; [apply Q.le_min_l | apply Q.le_max_l]. }
  assert (Habs : forall u v, Qabs (Qmax u v - Qmin u v) == Qabs (v - u)).
  { intros u v.
    destruct (Q.min_spec u v) as [[H E]|[H E]],
             (Q.max_spec u v) as [[H' E']|[H' E']]; rewrite E, E'; try lra;
      try reflexivity.
    rewrite (Qabs_Qminus u v). reflexivity. }
  unfold screen_eq, spanRect; cbn [r_left r_top r_width r_height].
  rewrite (Habs (fst a) (fst b)) in Hx. rewrite (Habs (snd a) (snd b)) in Hy.
  rewrite (Hmm (fst a) (fst b)), (Hmm (snd a) (snd b)),
    (Habs (fst a) (fst b)), (Habs (snd a) (snd b)).
  repeat split; try reflexivity; assumption.
Qed.

Lemma page_overlay_is_drag_rectangle_witness :
  exists boxes box,
    renderSelectionsForPage
      (gesture (Scenario.ready (Some "title"))
         (Scenario.click 300 150) (Scenario.click 100 100))
    = Some (boxes ++ [box]) /\
    8 <= r_width box.
Proof.
  destruct (page_overlay_is_drag_rectangle (Scenario.ready (Some "title"))
              Scenario.pageView (mkCanvas 0 0 1190 1684)
              (Scenario.click 300 150) (Scenario.click 100 100)
              eq_refl eq_refl eq_refl eq_refl)
    as (boxes & box & H & _ & Hw & _).
  - discriminate.
  - discriminate.
  - exists boxes, box. split; [exact H | exact Hw].
Defined.

(** X24.  With a document loaded and the current page inside it,
    [nextPage] and [prevPage] move by one page and stop at the last and at
    the first page, so the current page never leaves the document; they
    keep the store, and going forward and back from a page that is not the
    last returns to it. *)
Theorem page_navigation_stays_inside
  (pdfDoc : option Doc) (doc : Doc) (st : State) :
  pdfDoc = Some doc ->
  (0 <= currentPage st < numPages doc)%Z ->
  currentPage (nextPage pdfDoc st)
    = Z.min (currentPage st + 1) (numPages doc - 1) /\
  currentPage (prevPage pdfDoc st) = Z.max (currentPage st - 1) 0 /\
  (0 <= currentPage (nextPage pdfDoc st) < numPages doc)%Z /\
  (0 <= currentPage (prevPage pdfDoc st) < numPages doc)%Z /\
  selections (nextPage pdfDoc st) = selections st /\
  selections (prevPage pdfDoc st) = selections st /\
  currentPage (prevPage pdfDoc (nextPage pdfDoc st))
    = Z.max (Z.min (currentPage st) (numPages doc - 2)) 0 /\
  (nextPage pdfDoc st = st \/
   currentPageView (nextPage pdfDoc st)
   = Some (viewOf doc (currentPage st + 1))).
Proof.
  intros -> Hin.
  assert (Hnext : currentPage (nextPage (Some doc) st)
                  = Z.min (currentPage st + 1) (numPages doc - 1)
                  /\ selections (nextPage (Some doc) st) = selections st
                  /\ (nextPage (Some doc) st = st \/
                      currentPageView (nextPage (Some doc) st)
                      = Some (viewOf doc (currentPage st + 1)))).
  { unfold nextPage.
    destruct (numPages doc - 1 <=? currentPage st)%Z eqn:E.
    - apply Z.leb_le in E. split; [lia | auto].
    - apply Z.leb_gt in E. cbn. split; [lia | auto]. }
  assert (Hprev : forall s, currentPage (prevPage (Some doc) s)
                            = (if (currentPage s <=? 0)%Z then currentPage s
                               else currentPage s - 1)%Z
                            /\ selections (prevPage (Some doc) s) = selections s).
  { intros s. unfold prevPage.
    destruct (currentPage s <=? 0)%Z eqn:E; cbn; auto. }
  destruct Hnext as (Hn & Hns & Hnv).
  destruct (Hprev st) as [Hp Hps].
  destruct (Hprev (nextPage (Some doc) st)) as [Hpn _].
  rewrite Hpn, Hn, Hp.
  repeat split; try assumption;
    try (destruct (currentPage st <=? 0)%Z eqn:E;
         [apply Z.leb_le in E | apply Z.leb_gt in E]; lia).
  destruct (Z.min (currentPage st + 1) (numPages doc - 1) <=? 0)%Z eqn:E;
    [apply Z.leb_le in E | apply Z.leb_gt in E]; lia.
Qed.

Lemma page_navigation_stays_inside_witness :
  currentPage (nextPage (Some (mkDoc 3 (fun _ => Scenario.pageView)))
                 (nextPage (Some (mkDoc 3 (fun _ => Scenario.pageView)))
                    (nextPage (Some (mkDoc 3 (fun _ => Scenario.pageView)))
                       (Scenario.ready None)))) = 2%Z.
Proof.
  destruct (page_navigation_stays_inside
              (Some (mkDoc 3 (fun _ => Scenario.pageView)))
              (mkDoc 3 (fun _ => Scenario.pageView))
              (nextPage (Some (mkDoc 3 (fun _ => Scenario.pageView)))
                 (nextPage (Some (mkDoc 3 (fun _ => Scenario.pageView)))
                    (Scenario.ready None))) eq_refl) as (H & _).
  - split; [discriminate | reflexivity].
  - rewrite H. reflexivity.
Defined.

End PageControls.

(** ** Text areas and extracted texts *)
Section PageTexts.
Import SelectionPage.

Lemma append_empty_r (s : string) : s +:+ "" = s.
Proof.
  induction s as [|ch s IH]; [reflexivity|].
  change (String ch (s +:+ "") = String ch s). rewrite IH. reflexivity.
Qed.

(** X25.  [appendToField] never loses text and never creates a text area:
    every text area that existed keeps its old value as a prefix of its
    new value, and an area that did not exist still does not.  Without a
    field id nothing changes. *)
Theorem appendToField_keeps_text
  (trim : string -> string) (fieldId text : option string)
  (areas : gmap string string) (key : string) :
  let after := appendToField trim fieldId text areas in
  match areas !! key with
  | Some value => exists suffix, after !! key = Some (value +:+ suffix)
  | None => after !! key = None
  end /\
  appendToField trim None text areas = areas /\
  appendToField trim (Some "") text areas = areas.
Proof.
  cbv zeta. split; [|split; reflexivity].
  assert (Hsame : match areas !! key with
                  | Some value => exists suffix, areas !! key = Some (value +:+ suffix)
                  | None => areas !! key = None
                  end).
  { destruct (areas !! key) as [v|]; [|reflexivity].
    exists "". rewrite append_empty_r. reflexivity. }
  unfold appendToField.
  destruct (negb (truthy fieldId)); [exact Hsame|].
  destruct (areas !! ("field-" +:+ default "" fieldId)) as [value|] eqn:Hv;
    [|exact Hsame].
  destruct (String.eqb (trim _) ""); [exact Hsame|].
  destruct (decide (key = "field-" +:+ default "" fieldId)) as [->|Hne].
  - rewrite Hv. destruct (String.eqb value "") eqn:Hval; cbn [negb].
    + apply String.eqb_eq in Hval. subst value.
      eexists. rewrite lookup_insert_eq. reflexivity.
    + eexists. rewrite lookup_insert_eq. reflexivity.
  - destruct (negb (String.eqb value ""));
      rewrite lookup_insert_ne by congruence; exact Hsame.
Qed.

Lemma extractText_response_store (trim : string -> string)
    (active : option string) (items : list (option string)) :
  forall (sels : list Selection) (areas : gmap string string),
  length (fst (extractText_response trim active items sels areas)) = length sels /\
  text <$> fst (extractText_response trim active items sels areas)
  = take (length sels) (itemText <$> items)
    ++ (text <$> drop (length items) sels) /\
  Forall2 (fun s s' : Selection => s' = withText (text s') s) sels
    (fst (extractText_response trim active items sels areas)).
Proof.
  induction items as [|item items IH]; intros sels areas.
  - cbn [extractText_response fst fmap list_fmap length drop].
    rewrite take_nil. cbn [app].
    repeat split. apply Forall2_same. intros [] . reflexivity.
  - destruct sels as [|s sels].
    + cbn. repeat split. constructor.
    + cbn [extractText_response fst snd length fmap list_fmap take drop app].
      destruct (IH sels
                  (if truthy (if truthy (field_id s) then field_id s else active)
                   then appendToField trim
                          (if truthy (field_id s) then field_id s else active)
                          (Some (if truthy item then default "" item else "")) areas
                   else areas)) as (Hlen & Htext & Hall).
      split; [rewrite Hlen; reflexivity|].
      split.
      * change (list_fmap Selection string text) with (fmap (M:=list) text).
        change (list_fmap (option string) string itemText)
          with (fmap (M:=list) itemText).
        rewrite Htext. reflexivity.
      * constructor; [reflexivity | exact Hall].
Qed.

(** X26.  The answer of [extractText] is applied by position: the mark at
    each position receives the text of the item at the same position (an
    item without text gives the empty text), marks beyond the end of the
    answer keep their text and surplus items are ignored.  Nothing but the
    text of a mark changes, no mark is added or removed, and applying the
    same answer again leaves the marks as they are. *)
Theorem extractText_response_by_position
  (trim : string -> string) (active : option string)
  (items : list (option string)) (sels : list Selection)
  (areas areas' : gmap string string) :
  let out := extractText_response trim active items sels areas in
  length (fst out) = length sels /\
  text <$> fst out
  = take (length sels) (itemText <$> items)
    ++ (text <$> drop (length items) sels) /\
  Forall2 (fun s s' : Selection => s' = withText (text s') s) sels (fst out) /\
  fst (extractText_response trim active items (fst out) areas') = fst out.
Proof.
  cbv zeta.
  destruct (extractText_response_store trim active items sels areas)
    as (Hlen & Htext & Hall).
  split; [exact Hlen|]. split; [exact Htext|]. split; [exact Hall|].
  clear Hlen Htext Hall.
  revert sels areas areas'.
  induction items as [|item items IH]; intros sels areas areas'.
  - reflexivity.
  - destruct sels as [|s sels]; [reflexivity|].
    cbn [extractText_response fst snd].
    f_equal. apply IH.
Qed.

End PageTexts.

(** * Properties of the form script's helpers *)
Section References.
Import Stdlib.Strings.Ascii.
Import TextTools.

Lemma startsWithCI_glued (pattern s t : string) :
  (forall c, c ∈ String.list_ascii_of_string pattern -> c <> " "%char) ->
  startsWithCI pattern (s +:+ String " " t) = startsWithCI pattern s.
Proof.
  revert s. induction pattern as [|p pattern IH]; intros s Hns; [destruct s; reflexivity|].
  assert (Hp : p <> " "%char) by (apply Hns; left).
  assert (Hrest : forall c, c ∈ String.list_ascii_of_string pattern -> c <> " "%char)
    by (intros c Hc; apply Hns; right; exact Hc).
  destruct s as [|c s].
  - change (Ascii.eqb p (lowerAscii " "%char) && startsWithCI pattern t = false).
    change (lowerAscii " "%char) with " "%char.
    destruct (Ascii.eqb_spec p " "%char) as [E|_]; [contradiction | reflexivity].
  - change (Ascii.eqb p (lowerAscii c) && startsWithCI pattern (s +:+ String " " t)
            = Ascii.eqb p (lowerAscii c) && startsWithCI pattern s).
    rewrite IH by assumption. reflexivity.
Qed.

Lemma doiUrlPattern_glued (s t : string) :
  doiUrlPattern (s +:+ " " +:+ t) = doiUrlPattern s.
Proof.
  unfold doiUrlPattern.
  change (s +:+ " " +:+ t) with (s +:+ String " " t).
  rewrite !startsWithCI_glued; [reflexivity| | | | |];
    intros c Hc; cbn in Hc;
    repeat (apply elem_of_cons in Hc; destruct Hc as [->|Hc];
            [discriminate|]);
    apply elem_of_nil in Hc; contradiction.
Qed.

Lemma glued_not_empty (s t : string) : s <> "" -> s +:+ t <> "".
Proof. destruct s; [congruence | discriminate]. Qed.

Lemma mergeStep_invariant (trim : string -> string) (result : list string)
    (ref : string) :
  Forall (fun entry => entry <> "") result ->
  Forall (fun entry => doiUrlPattern entry = false) (tail result) ->
  Forall (fun entry => entry <> "") (mergeStep trim result ref) /\
  Forall (fun entry => doiUrlPattern entry = false)
    (tail (mergeStep trim result ref)) /\
  (length (mergeStep trim result ref) <= S (length result))%nat.
Proof.
  intros Hne Hurl. unfold mergeStep.
  destruct (String.eqb (trim ref) "") eqn:Hblank; [auto|].
  apply String.eqb_neq in Hblank.
  destruct (last result) as [entry|] eqn:Hlast.
  - apply last_Some in Hlast. destruct Hlast as [front ->].
    destruct (doiUrlPattern (trim ref)) eqn:Hpat.
    + rewrite removelast_last.
      apply Forall_app in Hne. destruct Hne as [Hfront Hentry].
      apply Forall_cons in Hentry. destruct Hentry as [Hentry _].
      split; [|split].
      * apply Forall_app. split; [assumption|].
        constructor; [apply glued_not_empty; assumption | constructor].
      * destruct front as [|f front]; [constructor|].
        cbn [app tail] in *. apply Forall_app in Hurl.
        destruct Hurl as [Hf He]. apply Forall_app. split; [assumption|].
        apply Forall_cons in He. destruct He as [He _].
        constructor; [|constructor].
        rewrite doiUrlPattern_glued. exact He.
      * rewrite !length_app. cbn. lia.
    + split; [|split].
      * apply Forall_app. split; [assumption|].
        constructor; [assumption | constructor].
      * destruct front as [|f front].
        -- cbn. constructor; [assumption | constructor].
        -- cbn [app tail] in *. apply Forall_app. split; [assumption|].
           constructor; [assumption | constructor].
      * rewrite !length_app. cbn. lia.
  - apply last_None in Hlast. subst result. cbn.
    split; [constructor; [assumption | constructor]|].
    split; [constructor | lia].
Qed.

Lemma fold_mergeStep_invariant (trim : string -> string) (refs : list string) :
  forall result : list string,
  Forall (fun entry => entry <> "") result ->
  Forall (fun entry => doiUrlPattern entry = false) (tail result) ->
  Forall (fun entry => entry <> "") (fold_left (mergeStep trim) refs result) /\
  Forall (fun entry => doiUrlPattern entry = false)
    (tail (fold_left (mergeStep trim) refs result)) /\
  (length (fold_left (mergeStep trim) refs result)
   <= length result + length refs)%nat.
Proof.
  induction refs as [|ref refs IH]; intros result Hne Hurl.
  - cbn. repeat split; auto. lia.
  - cbn [fold_left].
    destruct (mergeStep_invariant trim result ref Hne Hurl) as (H1 & H2 & H3).
    destruct (IH _ H1 H2) as (G1 & G2 & G3).
    repeat split; auto. cbn [length]. lia.
Qed.

(** X27.  [mergeDoiUrlWithReferences] never returns more entries than it
    was given, returns no empty entry, and returns no entry after the first
    that starts with a DOI or URL prefix: such a line is always glued to
    the reference before it. *)
Theorem mergeDoiUrlWithReferences_glues_links
  (trim : string -> string) (refs : list string) :
  (length (mergeDoiUrlWithReferences trim refs) <= length refs)%nat /\
  Forall (fun entry => doiUrlPattern entry = false)
    (tail (mergeDoiUrlWithReferences trim refs)) /\
  Forall (fun entry => entry <> "") (mergeDoiUrlWithReferences trim refs).
Proof.
  unfold mergeDoiUrlWithReferences.
  destruct refs as [|ref refs]; [repeat split; auto; constructor|].
  destruct (fold_mergeStep_invariant trim (ref :: refs) [])
    as (H1 & H2 & H3); [constructor | constructor |].
  repeat split; auto.
Qed.

Lemma fold_mergeStep_plain (trim : string -> string) (refs : list string) :
  forall result : list string,
  Forall (fun ref => doiUrlPattern (trim ref) = false) refs ->
  fold_left (mergeStep trim) refs result
  = result ++ filter (fun entry => entry <> "") (trim <$> refs).
Proof.
  induction refs as [|ref refs IH]; intros result Hplain.
  - cbn. rewrite app_nil_r. reflexivity.
  - apply Forall_cons in Hplain. destruct Hplain as [Hp Hplain].
    cbn [fold_left fmap list_fmap]. rewrite IH by assumption.
    rewrite filter_cons. unfold mergeStep. rewrite Hp.
    destruct (String.eqb (trim ref) "") eqn:E.
    + apply String.eqb_eq in E.
      destruct (decide (trim ref <> "")) as [Hn|_]; [contradiction | reflexivity].
    + apply String.eqb_neq in E.
      destruct (decide (trim ref <> "")) as [_|Hn]; [|contradiction].
      destruct (last result); rewrite <- app_assoc; reflexivity.
Qed.

(** X28.  When no line is a DOI or URL line, [mergeDoiUrlWithReferences]
    only cleans up: it returns the trimmed references without the blank
    ones, in their order. *)
Theorem mergeDoiUrlWithReferences_without_links
  (trim : string -> string) (refs : list string) :
  Forall (fun ref => doiUrlPattern (trim ref) = false) refs ->
  mergeDoiUrlWithReferences trim refs
  = filter (fun entry => entry <> "") (trim <$> refs).
Proof.
  intros Hplain. unfold mergeDoiUrlWithReferences.
  destruct refs as [|ref refs]; [reflexivity|].
  apply (fold_mergeStep_plain trim (ref :: refs) [] Hplain).
Qed.

Lemma mergeDoiUrlWithReferences_without_links_witness :
  mergeDoiUrlWithReferences Scenario.asciiTrim
    [" Ivanov I. Title. 2020. "; "  "; "Petrov P. Other title. 2021."]
  = ["Ivanov I. Title. 2020."; "Petrov P. Other title. 2021."].
Proof.
  rewrite (mergeDoiUrlWithReferences_without_links Scenario.asciiTrim
             [" Ivanov I. Title. 2020. "; "  "; "Petrov P. Other title. 2021."]).
  - reflexivity.
  - repeat constructor.
Defined.

Lemma nextIndex_fold (indices : list (option Z)) :
  forall start : Z,
  let top := fold_left
               (fun maxIndex item =>
                  match item with
                  | Some index => if (maxIndex <? index)%Z then index else maxIndex
                  | None => maxIndex
                  end) indices start in
  (start <= top)%Z /\
  Forall (fun item => match item with
                      | Some index => (index <= top)%Z
                      | None => True
                      end) indices /\
  (top = start \/ Some top ∈ indices).
Proof.
  induction indices as [|item indices IH]; intros start; cbv zeta.
  - cbn. repeat split; auto; lia.
  - cbn [fold_left].
    destruct item as [index|].
    + destruct (start <? index)%Z eqn:E;
        [apply Z.ltb_lt in E | apply Z.ltb_ge in E].
      * destruct (IH index) as (H1 & H2 & H3). cbv zeta in H1, H2, H3.
        split; [lia|]. split; [constructor; [lia | exact H2]|].
        right. destruct H3 as [->|H3]; [left | right; exact H3].
      * destruct (IH start) as (H1 & H2 & H3). cbv zeta in H1, H2, H3.
        split; [lia|]. split; [constructor; [lia | exact H2]|].
        destruct H3 as [H3|H3]; [left; exact H3 | right; right; exact H3].
    + destruct (IH start) as (H1 & H2 & H3). cbv zeta in H1, H2, H3.
      split; [lia|]. split; [constructor; [exact I | exact H2]|].
      destruct H3 as [H3|H3]; [left; exact H3 | right; right; exact H3].
Qed.

(** X29.  [getNextAuthorIndex] returns a number that is not negative and
    larger than the index of every author item on the page, and it is the
    smallest such number: 0 when no item has a readable index of at least
    0, and otherwise one more than an index that is present. *)
Theorem getNextAuthorIndex_is_fresh (indices : list (option Z)) :
  (0 <= getNextAuthorIndex indices)%Z /\
  Forall (fun item => match item with
                      | Some index => (index < getNextAuthorIndex indices)%Z
                      | None => True
                      end) indices /\
  (getNextAuthorIndex indices = 0%Z \/
   Some (getNextAuthorIndex indices - 1)%Z ∈ indices).
Proof.
  unfold getNextAuthorIndex.
  destruct (nextIndex_fold indices (-1)) as (H1 & H2 & H3). cbv zeta in H1, H2, H3.
  split; [lia|]. split.
  - eapply Forall_impl; [exact H2|]. intros [index|]; [cbn; lia | auto].
  - destruct H3 as [H3|H3]; [left; lia|].
    right. replace (_ + 1 - 1)%Z with
      (fold_left
         (fun maxIndex item =>
            match item with
            | Some index => if (maxIndex <? index)%Z then index else maxIndex
            | None => maxIndex
            end) indices (-1)%Z) by lia.
    exact H3.
Qed.

End References.
